(** * Generic loader (hw/core/generic-loader.c): a shallow embedding

    The device has two entry points: [generic_loader_realize], run once
    when the device is created, and [generic_loader_reset], the reset
    callback it registers.  Both are embedded here as functions over an
    explicit machine state ([World]) in a small state-and-fault monad.

    What the C file calls but does not define (the CPU class methods,
    [cpu_reset], the image loaders, the endianness of host and target)
    is taken as a parameter, bundled in the class [Host]. *)

From Stdlib Require Import ZArith String Ascii.
From stdpp Require Import base option list strings gmap.

Local Open Scope Z_scope.

(** ** Bytes and 64-bit values *)

Definition byte_of (x : Z) : Z := Z.land x 255.

(** The [n] low-order bytes of [x], least significant first. *)
Fixpoint le_bytes (n : nat) (x : Z) : list Z :=
  match n with
  | O => []
  | S n' => byte_of x :: le_bytes n' (Z.shiftr x 8)
  end.

Fixpoint from_le (bs : list Z) : Z :=
  match bs with
  | [] => 0
  | b :: bs' => Z.lor (byte_of b) (Z.shiftl (from_le bs') 8)
  end.

Definition be_bytes (n : nat) (x : Z) : list Z := rev (le_bytes n x).

Definition bswap64 (x : Z) : Z := from_le (be_bytes 8 x).

(** ** [sscanf(name, "r%d", &reg_num)]

    The literal [r] must be the first character.  [%d] then skips white
    space, takes an optional sign and reads the longest run of decimal
    digits, at least one; what follows the digits is left unread.  The
    result is the number read, [None] when the call does not return 1.
    The number is kept as a mathematical integer: C leaves the
    conversion undefined when it does not fit an [int], so the model
    speaks for the code only on names whose number lies between
    [INT_MIN] and [INT_MAX]. *)

Definition isspace (c : ascii) : bool :=
  let n := Z.of_N (N_of_ascii c) in
  (n =? 32) || ((9 <=? n) && (n <=? 13)).

Definition digit_of (c : ascii) : option Z :=
  let n := Z.of_N (N_of_ascii c) in
  if (48 <=? n) && (n <=? 57) then Some (n - 48) else None.

Fixpoint skip_spaces (s : string) : string :=
  match s with
  | String c t => if isspace c then skip_spaces t else s
  | EmptyString => s
  end.

Fixpoint scan_digits (acc : Z) (s : string) : Z :=
  match s with
  | String c t =>
      match digit_of c with
      | Some d => scan_digits (10 * acc + d) t
      | None => acc
      end
  | EmptyString => acc
  end.

Definition scan_sign (s : string) : bool * string :=
  match s with
  | String c t =>
      if Ascii.eqb c "-" then (true, t)
      else if Ascii.eqb c "+" then (false, t)
      else (false, s)
  | EmptyString => (false, s)
  end.

Definition scan_int (s : string) : option Z :=
  let '(neg, s') := scan_sign (skip_spaces s) in
  match s' with
  | String c _ =>
      match digit_of c with
      | Some _ => Some (if neg then - scan_digits 0 s' else scan_digits 0 s')
      | None => None
      end
  | EmptyString => None
  end.

Definition sscanf_r_d (s : string) : option Z :=
  match s with
  | String c t => if Ascii.eqb c "r" then scan_int t else None
  | EmptyString => None
  end.

Definition INT_MIN : Z := -2147483648.
Definition INT_MAX : Z := 2147483647.

(** ** The parameters of the embedding *)

Class Host := {
  (** architectural state of one CPU (registers, program counter, ...) *)
  arch : Type;
  (** [cpu_reset] of hw/core/cpu.h, on the architectural state *)
  cpu_reset : arch → arch;
  (** byte order of the machine QEMU runs on *)
  HOST_BIG_ENDIAN : bool;
  target_words_bigendian : bool;
  (** The image loaders of hw/loader.h.  Each gets the file name (and the
      address space, [None] for a NULL pointer) and returns the size it
      reports, negative on failure; the first three also return the value
      they leave in [*entry].  What a load puts into the address space is
      not part of the model: a load shows as an entry of the loader log. *)
  load_elf_as : string → bool → option nat → Z * Z;
  load_uimage_as : string → option nat → Z * Z;
  load_targphys_hex_as : string → option nat → Z * Z;
  load_image_targphys_as : string → Z → Z → option nat → Z;
}.

Section Loader.
Context `{Host}.

(** [cpu_to_be64], [cpu_to_le64]: swap when host order differs. *)
Definition cpu_to_be64 (x : Z) : Z := if HOST_BIG_ENDIAN then x else bswap64 x.
Definition cpu_to_le64 (x : Z) : Z := if HOST_BIG_ENDIAN then bswap64 x else x.

(** The eight bytes of a [uint64_t] object as they lie in host memory:
    what [(uint8_t * )&s->data] and [memcpy(buf, &x, 8)] read. *)
Definition host_image64 (x : Z) : list Z :=
  if HOST_BIG_ENDIAN then be_bytes 8 x else le_bytes 8 x.

(** ** Machine state *)

Record MemTxAttrs := {
  unspecified : bool;
  secure : bool;
  user : bool;
  debug : bool;
  requester_id : Z;
}.

(** The two methods of [CPUClass] the loader calls.  A method the class
    does not implement is a NULL pointer, here [None]. *)
Record CPUClass := {
  cc_set_pc : arch → Z → arch;
  cc_gdb_write_register : option (arch → list Z → Z → arch);
}.

Record CPUState := {
  cpu_index : Z;
  (** handle of the CPU's address space, [cpu->as] *)
  as_ : nat;
  (** what [CPU_GET_CLASS] returns for this CPU *)
  cc : option CPUClass;
  env : arch;
}.

(** One call of an image loader, with the size it reported. *)
Inductive LoadCall :=
| CallElf (f : string) (big_endian : bool) (a : option nat) (size : Z)
| CallUimage (f : string) (a : option nat) (size : Z)
| CallHex (f : string) (a : option nat) (size : Z)
| CallRaw (f : string) (addr max_sz : Z) (a : option nat) (size : Z).

Definition call_size (c : LoadCall) : Z :=
  match c with
  | CallElf _ _ _ n | CallUimage _ _ n | CallHex _ _ n | CallRaw _ _ _ _ n => n
  end.

Record World := {
  (** the system's CPU list in enumeration order; a [CPUState *] is a
      position in this list *)
  cpus : list CPUState;
  (** address spaces by handle, each a byte-addressed memory *)
  spaces : gmap nat (gmap Z Z);
  (** devices whose [generic_loader_reset] is in the reset registry *)
  reset_handlers : list nat;
  (** loader calls made so far, oldest first *)
  load_log : list LoadCall;
  (** [phase_check(PHASE_MACHINE_READY)] *)
  machine_ready : bool;
  (** [current_machine->ram_size] *)
  ram_size : Z;
}.

Definition with_cpus (cs : list CPUState) (w : World) : World :=
  {| cpus := cs; spaces := spaces w; reset_handlers := reset_handlers w;
     load_log := load_log w; machine_ready := machine_ready w;
     ram_size := ram_size w |}.

Definition with_spaces (sp : gmap nat (gmap Z Z)) (w : World) : World :=
  {| cpus := cpus w; spaces := sp; reset_handlers := reset_handlers w;
     load_log := load_log w; machine_ready := machine_ready w;
     ram_size := ram_size w |}.

Definition with_reset_handlers (hs : list nat) (w : World) : World :=
  {| cpus := cpus w; spaces := spaces w; reset_handlers := hs;
     load_log := load_log w; machine_ready := machine_ready w;
     ram_size := ram_size w |}.

Definition with_load_log (l : list LoadCall) (w : World) : World :=
  {| cpus := cpus w; spaces := spaces w; reset_handlers := reset_handlers w;
     load_log := l; machine_ready := machine_ready w;
     ram_size := ram_size w |}.

(** ** The monad: state passing over [World], stopped by a fault *)

Inductive Fault :=
| AssertionFailed   (** an [assert] did not hold: the process aborts *)
| NullDereference.  (** a NULL [CPUState *] was dereferenced *)

Inductive outcome (A : Type) :=
| Ran (a : A) (w : World)
| Stopped (f : Fault) (w : World).
Arguments Ran {A} a w.
Arguments Stopped {A} f w.

Definition M (A : Type) : Type := World → outcome A.

Definition ret {A} (a : A) : M A := λ w, Ran a w.

Definition bind {A B} (m : M A) (k : A → M B) : M B :=
  λ w, match m w with
       | Ran a w' => k a w'
       | Stopped f w' => Stopped f w'
       end.

Definition stop {A} (f : Fault) : M A := λ w, Stopped f w.
Definition get : M World := λ w, Ran w w.
Definition modify (g : World → World) : M unit := λ w, Ran tt (g w).

Notation "x <- m ; k" := (bind m (λ x, k))
  (at level 100, m at next level, right associativity).
Notation "m ;; k" := (bind m (λ _, k))
  (at level 100, right associativity).

Definition when (b : bool) (m : M unit) : M unit := if b then m else ret tt.

(** [assert]: QEMU is built with assertions enabled, a failed one aborts. *)
Definition assert (b : bool) : M unit :=
  if b then ret tt else stop AssertionFailed.

(** Run [f] for each element of [l], in order. *)
Fixpoint for_each {A} (l : list A) (f : A → M unit) : M unit :=
  match l with
  | [] => ret tt
  | x :: l' => f x ;; for_each l' f
  end.

(** ** Collaborators on the machine state *)

Definition set_env (e : arch) (c : CPUState) : CPUState :=
  {| cpu_index := cpu_index c; as_ := as_ c; cc := cc c; env := e |}.

(** Apply [f] to the architectural state of the CPU at handle [h]. *)
Definition update_env (h : nat) (f : arch → arch) : M unit :=
  modify (λ w, with_cpus (alter (λ c, set_env (f (env c)) c) h (cpus w)) w).

(** Follow a [CPUState *]: NULL, or a handle that names no CPU, faults. *)
Definition deref_cpu (p : option nat) : M (nat * CPUState) :=
  w <- get;
  match p with
  | Some h =>
      match cpus w !! h with
      | Some c => ret (h, c)
      | None => stop NullDereference
      end
  | None => stop NullDereference
  end.

Fixpoint write_bytes (m : gmap Z Z) (a : Z) (bs : list Z) : gmap Z Z :=
  match bs with
  | [] => m
  | b :: bs' => write_bytes (<[a := b]> m) (a + 1) bs'
  end.

(** Modelled from the spec: [address_space_rw] is not in the file; section
    6 gives it a starting address, a byte count and transaction metadata.
    The address space is plain memory: a write stores the first [len]
    bytes of [buf] from [addr] on, whatever the metadata. *)
Definition address_space_rw (a : nat) (addr : Z) (attrs : MemTxAttrs)
    (buf : list Z) (len : Z) (is_write : bool) : M unit :=
  if is_write then
    modify (λ w, with_spaces
      (<[a := write_bytes (spaces w !!! a) addr (take (Z.to_nat len) buf)]>
         (spaces w)) w)
  else ret tt.

(** [qemu_get_cpu(index)]: the first CPU whose [cpu_index] is [index].
    The parameter is an [int], so the [uint32_t] argument is converted. *)
Definition int_of_uint32 (n : Z) : Z :=
  if n <? 2147483648 then n else n - 4294967296.

Fixpoint find_cpu (index : Z) (h : nat) (cs : list CPUState) : option nat :=
  match cs with
  | [] => None
  | c :: cs' => if cpu_index c =? index then Some h else find_cpu index (S h) cs'
  end.

Definition qemu_get_cpu (index : Z) (w : World) : option nat :=
  find_cpu (int_of_uint32 index) 0 (cpus w).

(** [first_cpu]: the head of the CPU list, NULL when there is none. *)
Definition first_cpu (w : World) : option nat :=
  match cpus w with
  | [] => None
  | _ :: _ => Some 0%nat
  end.

Definition qemu_register_reset_loader (dev : nat) : M unit :=
  modify (λ w, with_reset_handlers (reset_handlers w ++ [dev]) w).

(** Removes the first entry registered for [dev], if any. *)
Fixpoint remove_first (dev : nat) (l : list nat) : list nat :=
  match l with
  | [] => []
  | d :: l' => if Nat.eqb d dev then l' else d :: remove_first dev l'
  end.

Definition qemu_unregister_reset_loader (dev : nat) : M unit :=
  modify (λ w, with_reset_handlers (remove_first dev (reset_handlers w)) w).

(** ** The device *)

Definition CPU_NONE : Z := 4294967295.

(** [GenericLoaderState].  The header that declares it is not in the
    file; the fields and their widths are those the property table and
    the two functions use. *)
Record GenericLoaderState := {
  (** NULL, or the handle of a CPU *)
  cpu : option nat;
  addr : Z;
  data : Z;
  data_len : Z;
  cpu_num : Z;
  file : option string;
  reg : option string;
  force_raw : bool;
  data_be : bool;
  set_pc : bool;
  attrs : MemTxAttrs;
  (** two arrays of 31 elements, read at indices below 31 only *)
  register_defaults : list Z;
  has_register_defaults : list bool;
}.

Definition sizeof_data : Z := 8.

(** Lines 52-58: reset the CPU and set its program counter. *)
Definition reset_pc (s : GenericLoaderState) : M unit :=
  when (set_pc s) (
    hc <- deref_cpu (cpu s);
    update_env hc.1 cpu_reset ;;
    match cc hc.2 with
    | Some k => update_env hc.1 (λ e, cc_set_pc k e (addr s))
    | None => ret tt
    end).

(** Lines 61-68: the body of the loop over the 31 register slots. *)
Definition reset_register (s : GenericLoaderState) (i : nat) : M unit :=
  when (has_register_defaults s !!! i) (
    hc <- deref_cpu (cpu s);
    let buf := host_image64 (register_defaults s !!! i) in
    match cc hc.2 with
    | Some k =>
        match cc_gdb_write_register k with
        | Some write => update_env hc.1 (λ e, write e buf (Z.of_nat i))
        | None => ret tt
        end
    | None => ret tt
    end).

(** Lines 73-88: the write of the literal value. *)
Definition reset_data (s : GenericLoaderState) : M unit :=
  when (negb (data_len s =? 0)) (
    let attrs' := {| unspecified := false; secure := secure (attrs s);
                     user := false; debug := debug (attrs s);
                     requester_id := requester_id (attrs s) |} in
    assert (data_len s <? sizeof_data) ;;
    hc <- deref_cpu (cpu s);
    address_space_rw (as_ hc.2) (addr s) attrs' (host_image64 (data s))
                     (data_len s) true).

Definition generic_loader_reset (s : GenericLoaderState) : M unit :=
  reset_pc s ;;
  for_each (seq 0 31) (reset_register s) ;;
  reset_data s.

(** The errors [generic_loader_realize] reports through [errp], one per
    message. *)
Inductive Error :=
| ErrFileWithData          (** Specifying a file is not supported when loading memory values *)
| ErrForceRawWithData      (** Specifying force-raw is not supported when loading memory values *)
| ErrDataLenMissing        (** Both data and data-len must be specified *)
| ErrDataLenTooBig         (** data-len cannot be greater then 8 bytes *)
| ErrDataWithImage         (** data can not be specified when loading an image *)
| ErrDataWithPC            (** data can not be specified when setting a program counter *)
| ErrCpuNumMissing         (** cpu_num must be specified when setting a program counter *)
| ErrNoArguments           (** please include valid arguments *)
| ErrCpuNonexistent (n : Z)          (** Specified boot CPU#%d is nonexistent;
                                         [n] is the number as [%d] prints it *)
| ErrCannotLoad (f : string)         (** Cannot load specified image %s *)
| ErrUnsupportedRegister (r : string). (** Unsupported register: %s *)

Definition with_set_pc (b : bool) (s : GenericLoaderState) :=
  {| cpu := cpu s; addr := addr s; data := data s; data_len := data_len s;
     cpu_num := cpu_num s; file := file s; reg := reg s;
     force_raw := force_raw s; data_be := data_be s; set_pc := b;
     attrs := attrs s; register_defaults := register_defaults s;
     has_register_defaults := has_register_defaults s |}.

Definition with_cpu (c : option nat) (s : GenericLoaderState) :=
  {| cpu := c; addr := addr s; data := data s; data_len := data_len s;
     cpu_num := cpu_num s; file := file s; reg := reg s;
     force_raw := force_raw s; data_be := data_be s; set_pc := set_pc s;
     attrs := attrs s; register_defaults := register_defaults s;
     has_register_defaults := has_register_defaults s |}.

Definition with_addr (a : Z) (s : GenericLoaderState) :=
  {| cpu := cpu s; addr := a; data := data s; data_len := data_len s;
     cpu_num := cpu_num s; file := file s; reg := reg s;
     force_raw := force_raw s; data_be := data_be s; set_pc := set_pc s;
     attrs := attrs s; register_defaults := register_defaults s;
     has_register_defaults := has_register_defaults s |}.

Definition with_data (d : Z) (s : GenericLoaderState) :=
  {| cpu := cpu s; addr := addr s; data := d; data_len := data_len s;
     cpu_num := cpu_num s; file := file s; reg := reg s;
     force_raw := force_raw s; data_be := data_be s; set_pc := set_pc s;
     attrs := attrs s; register_defaults := register_defaults s;
     has_register_defaults := has_register_defaults s |}.

(** [s->register_defaults[n] = v; s->has_register_defaults[n] = true] *)
Definition with_register_default (n : nat) (v : Z) (s : GenericLoaderState) :=
  {| cpu := cpu s; addr := addr s; data := data s; data_len := data_len s;
     cpu_num := cpu_num s; file := file s; reg := reg s;
     force_raw := force_raw s; data_be := data_be s; set_pc := set_pc s;
     attrs := attrs s; register_defaults := <[n := v]> (register_defaults s);
     has_register_defaults := <[n := true]> (has_register_defaults s) |}.

(** [s->data || s->data_len || s->data_be] *)
Definition data_given (s : GenericLoaderState) : bool :=
  negb (data s =? 0) || negb (data_len s =? 0) || data_be s.

(** Lines 98-148: the checks on the user's options.  Returns the state
    with [set_pc] decided, and the error if a check fails. *)
Definition check_options (s : GenericLoaderState)
    : GenericLoaderState * option Error :=
  let s := with_set_pc false s in
  if data_given s then
    if bool_decide (is_Some (file s)) then (s, Some ErrFileWithData)
    else if force_raw s then (s, Some ErrForceRawWithData)
    else if data_len s =? 0 then (s, Some ErrDataLenMissing)
    else if 8 <? data_len s then (s, Some ErrDataLenTooBig)
    else (s, None)
  else if bool_decide (is_Some (file s)) || force_raw s then
    if data_given s then (s, Some ErrDataWithImage)
    else if negb (cpu_num s =? CPU_NONE) then (with_set_pc true s, None)
    else (s, None)
  else if negb (addr s =? 0) then
    if data_given s then (s, Some ErrDataWithPC)
    else if cpu_num s =? CPU_NONE then (s, Some ErrCpuNumMissing)
    else (with_set_pc true s, None)
  else (s, Some ErrNoArguments).

(** A loader call, entered in the log. *)
Definition call_elf (f : string) (a : option nat) : M (Z * Z) :=
  let r := load_elf_as f target_words_bigendian a in
  modify (λ w, with_load_log (load_log w ++ [CallElf f target_words_bigendian a r.1]) w) ;;
  ret r.

Definition call_uimage (f : string) (a : option nat) : M (Z * Z) :=
  let r := load_uimage_as f a in
  modify (λ w, with_load_log (load_log w ++ [CallUimage f a r.1]) w) ;;
  ret r.

Definition call_hex (f : string) (a : option nat) : M (Z * Z) :=
  let r := load_targphys_hex_as f a in
  modify (λ w, with_load_log (load_log w ++ [CallHex f a r.1]) w) ;;
  ret r.

Definition call_raw (f : string) (addr max_sz : Z) (a : option nat) : M Z :=
  let r := load_image_targphys_as f addr max_sz a in
  modify (λ w, with_load_log (load_log w ++ [CallRaw f addr max_sz a r]) w) ;;
  ret r.

(** Lines 165-193: the image is loaded.  The pair threaded through the
    structured loaders is [(size, entry)]; [entry] starts uninitialised
    in C (0 here) and is read only after a loader has set it. *)
Definition load_image (s : GenericLoaderState)
    : M (GenericLoaderState * option Error) :=
  match file s with
  | None => ret (s, None)
  | Some f =>
      a <- match cpu s with
           | Some _ => hc <- deref_cpu (cpu s); ret (Some (as_ hc.2))
           | None => ret None
           end;
      se <- (if negb (force_raw s) then
               se <- call_elf f a;
               se <- (if se.1 <? 0 then call_uimage f a else ret se);
               if se.1 <? 0 then call_hex f a else ret se
             else ret (0, 0));
      ss <- (if (se.1 <? 0) || force_raw s then
               w <- get;
               size <- call_raw f (addr s) (ram_size w) a;
               ret (size, s)
             else ret (se.1, with_addr se.2 s));
      if ss.1 <? 0 then ret (ss.2, Some (ErrCannotLoad f))
      else ret (ss.2, None)
  end.

(** Lines 195-200. *)
Definition convert_data (s : GenericLoaderState) : GenericLoaderState :=
  with_data (if data_be s then cpu_to_be64 (data s) else cpu_to_le64 (data s)) s.

(** Lines 210-221. *)
Definition store_register_default (s : GenericLoaderState)
    : GenericLoaderState * option Error :=
  match reg s with
  | None => (s, None)
  | Some r =>
      match sscanf_r_d r with
      | Some reg_num =>
          if (0 <=? reg_num) && (reg_num <? 31) then
            (with_register_default (Z.to_nat reg_num) (data s) s, None)
          else (s, Some (ErrUnsupportedRegister r))
      | None => (s, Some (ErrUnsupportedRegister r))
      end
  end.

(** Lines 195-221: what [generic_loader_realize] does once the image, if
    any, is loaded. *)
Definition finish_realize (s : GenericLoaderState)
    : M (GenericLoaderState * option Error) :=
  let s := convert_data s in
  w <- get;
  when (machine_ready w) (generic_loader_reset s) ;;
  ret (store_register_default s).

(** Lines 152-161, up to the test of the result: [s->cpu] is looked up
    by index, or is the first CPU when no index was given. *)
Definition resolve_cpu (s : GenericLoaderState) (w : World) : GenericLoaderState :=
  if negb (cpu_num s =? CPU_NONE)
  then with_cpu (qemu_get_cpu (cpu_num s) w) s
  else with_cpu (first_cpu w) s.

(** [generic_loader_realize(dev, errp)].  The result is the device state
    the function leaves and the error it has set, if any. *)
Definition generic_loader_realize (dev : nat) (s : GenericLoaderState)
    : M (GenericLoaderState * option Error) :=
  match check_options s with
  | (s, Some e) => ret (s, Some e)
  | (s, None) =>
      qemu_register_reset_loader dev ;;
      w <- get;
      let s := resolve_cpu s w in
      if negb (cpu_num s =? CPU_NONE) && negb (bool_decide (is_Some (cpu s)))
      then ret (s, Some (ErrCpuNonexistent (int_of_uint32 (cpu_num s))))
      else
        r <- load_image s;
        match r with
        | (s, Some e) => ret (s, Some e)
        | (s, None) => finish_realize s
        end
  end.

Definition generic_loader_unrealize (dev : nat) : M unit :=
  qemu_unregister_reset_loader dev.

(** The device as the object system creates it: the defaults of
    [generic_loader_props], everything else zero. *)
Definition zero_attrs : MemTxAttrs :=
  {| unspecified := false; secure := false; user := false; debug := false;
     requester_id := 0 |}.

Definition generic_loader_props : GenericLoaderState :=
  {| cpu := None; addr := 0; data := 0; data_len := 0; cpu_num := CPU_NONE;
     file := None; reg := None; force_raw := false; data_be := false;
     set_pc := false; attrs := zero_attrs;
     register_defaults := replicate 31 0;
     has_register_defaults := replicate 31 false |}.

End Loader.

Arguments Ran {_ A} a w.
Arguments Stopped {_ A} f w.

Notation "x <- m ; k" := (bind m (λ x, k))
  (at level 100, m at next level, right associativity).
Notation "m ;; k" := (bind m (λ _, k))
  (at level 100, right associativity).

(** The machine state a run ends in, whether it finished or stopped. *)
Definition world_of `{Host} {A} (o : outcome A) : World :=
  match o with
  | Ran _ w => w
  | Stopped _ w => w
  end.

(** One byte of an address space, [None] where nothing was ever stored. *)
Definition peek `{Host} (w : World) (a : nat) (x : Z) : option Z :=
  (spaces w !!! a) !! x.

(** ** The loader sequence of section 4.3, in the spec's words

    Formats are tried in a fixed order, only the raw one when [forceRaw]
    is set; the first attempt that reports a non-negative size wins; a
    format that produces an entry address makes it the effective
    address, a raw load leaves the address as configured; when every
    attempt fails the image cannot be loaded. *)

Inductive Format := StructuredExecutable | BootImage | HexRecord | RawBinary.

Section Sequencer.
Context `{Host}.

(** One attempt: the call made, the size it reports, and the entry
    address if the format produces one.  The raw load goes to the
    configured address and is capped at the machine's memory size. *)
Definition attempt (f : string) (addr ram : Z) (a : option nat) (fmt : Format)
    : LoadCall * Z * option Z :=
  match fmt with
  | StructuredExecutable =>
      let r := load_elf_as f target_words_bigendian a in
      (CallElf f target_words_bigendian a r.1, r.1, Some r.2)
  | BootImage =>
      let r := load_uimage_as f a in (CallUimage f a r.1, r.1, Some r.2)
  | HexRecord =>
      let r := load_targphys_hex_as f a in (CallHex f a r.1, r.1, Some r.2)
  | RawBinary =>
      let n := load_image_targphys_as f addr ram a in
      (CallRaw f addr ram a n, n, None)
  end.

(** The attempts made, in order, and the entry of the winner if one won.
    A negative size signals failure. *)
Fixpoint first_success (f : string) (addr ram : Z) (a : option nat)
    (order : list Format) : list LoadCall * option (option Z) :=
  match order with
  | [] => ([], None)
  | fmt :: rest =>
      let '(c, size, entry) := attempt f addr ram a fmt in
      if size <? 0 then
        let '(cs, r) := first_success f addr ram a rest in (c :: cs, r)
      else ([c], Some entry)
  end.

Definition sequencer_order (forceRaw : bool) : list Format :=
  if forceRaw then [RawBinary]
  else [StructuredExecutable; BootImage; HexRecord; RawBinary].

(** The attempts made, and the effective address or the error. *)
Definition spec_sequencer (f : string) (forceRaw : bool) (addr ram : Z)
    (a : option nat) : list LoadCall * (Z + Error) :=
  match first_success f addr ram a (sequencer_order forceRaw) with
  | (cs, Some (Some entry)) => (cs, inl entry)
  | (cs, Some None) => (cs, inl addr)
  | (cs, None) => (cs, inr (ErrCannotLoad f))
  end.

(** The address space handed to the loaders: that of the device's CPU,
    NULL when it has none. *)
Definition loader_space (s : GenericLoaderState) (w : World) : option nat :=
  match cpu s with
  | Some h => as_ <$> cpus w !! h
  | None => None
  end.

Definition registered (dev : nat) (w : World) : World :=
  with_reset_handlers (reset_handlers w ++ [dev]) w.

Definition logged (cs : list LoadCall) (w : World) : World :=
  with_load_log (load_log w ++ cs) w.

End Sequencer.

(** ** What the reset callback does to a CPU, as a function

    Used to state what a run of [generic_loader_reset] amounts to. *)

Section Effects.
Context `{Host}.

(** The machine after the CPU at handle [h] got the architectural state
    [f] computes from it. *)
Definition on_cpu (h : nat) (f : CPUState → arch) (w : World) : World :=
  with_cpus (alter (λ c, set_env (f c) c) h (cpus w)) w.

Definition pc_effect (s : GenericLoaderState) (c : CPUState) : arch :=
  if set_pc s then
    match cc c with
    | Some k => cc_set_pc k (cpu_reset (env c)) (addr s)
    | None => cpu_reset (env c)
    end
  else env c.

Definition default_effect (s : GenericLoaderState) (i : nat) (c : CPUState) : arch :=
  if (has_register_defaults s !!! i : bool) then
    match cc c with
    | Some k =>
        match cc_gdb_write_register k with
        | Some write =>
            write (env c) (host_image64 (register_defaults s !!! i)) (Z.of_nat i)
        | None => env c
        end
    | None => env c
    end
  else env c.

Fixpoint defaults_effect (s : GenericLoaderState) (l : list nat) (c : CPUState) : arch :=
  match l with
  | [] => env c
  | i :: l' => defaults_effect s l' (set_env (default_effect s i c) c)
  end.

(** One slot of the loop, on the architectural state of CPU [c]. *)
Definition default_step (s : GenericLoaderState) (c : CPUState) (i : nat)
    (e : arch) : arch :=
  default_effect s i (set_env e c).

Definition cpu_effect (s : GenericLoaderState) (c : CPUState) : arch :=
  defaults_effect s (seq 0 31) (set_env (pc_effect s c) c).

(** The literal write on address space [a]. *)
Definition data_effect (s : GenericLoaderState) (a : nat) (w : World) : World :=
  with_spaces
    (<[a := write_bytes (spaces w !!! a) (addr s)
              (take (Z.to_nat (data_len s)) (host_image64 (data s)))]>
       (spaces w)) w.

End Effects.

(** ** Further vocabulary for statements about setup *)

(** The machine with its ready milestone passed, or not. *)
Definition with_machine_ready `{Host} (b : bool) (w : World) : World :=
  {| cpus := cpus w; spaces := spaces w; reset_handlers := reset_handlers w;
     load_log := load_log w; machine_ready := b; ram_size := ram_size w |}.

(** The number of register slots that hold a default. *)
Definition populated (s : GenericLoaderState) : nat :=
  length (filter (λ b, b = true) (has_register_defaults s)).

(** The three ways the option checks of lines 101-148 can be passed. *)
Definition data_mode (s : GenericLoaderState) : Prop :=
  data_given s = true ∧ file s = None ∧ force_raw s = false ∧
  data_len s ≠ 0 ∧ data_len s ≤ 8.

Definition image_mode (s : GenericLoaderState) : Prop :=
  data_given s = false ∧ (is_Some (file s) ∨ force_raw s = true).

Definition pc_mode (s : GenericLoaderState) : Prop :=
  data_given s = false ∧ file s = None ∧ force_raw s = false ∧
  addr s ≠ 0 ∧ cpu_num s ≠ CPU_NONE.

(** ** Register names, in words

    The names setup accepts: the letter [r], then any white space, then
    an optional sign, then one or more decimal digits, then anything that
    does not start with a digit.  The name stands for the number the
    digits spell, negated under a minus sign. *)

Fixpoint all_chars (P : ascii → bool) (s : string) : bool :=
  match s with
  | EmptyString => true
  | String c t => P c && all_chars P t
  end.

Definition starts_with (P : ascii → bool) (s : string) : bool :=
  match s with
  | EmptyString => false
  | String c _ => P c
  end.

Definition is_digit (c : ascii) : bool :=
  match digit_of c with
  | Some _ => true
  | None => false
  end.

Fixpoint decimal_value (acc : Z) (ds : string) : Z :=
  match ds with
  | EmptyString => acc
  | String c t => decimal_value (10 * acc + (Z.of_N (N_of_ascii c) - 48)) t
  end.

Inductive names_register (r : string) (n : Z) : Prop :=
| NamesRegister (ws sign ds rest : string) :
    r = String "r" (ws +:+ sign +:+ ds +:+ rest) →
    all_chars isspace ws = true →
    sign = ""%string ∨ sign = "+"%string ∨ sign = "-"%string →
    ds ≠ ""%string →
    all_chars is_digit ds = true →
    starts_with is_digit rest = false →
    n = (if String.eqb sign "-" then - decimal_value 0 ds else decimal_value 0 ds) →
    names_register r n.

(** Setup got as far as the register name: it succeeded, or failed on
    the name. *)
Definition reaches_register (e : option Error) : bool :=
  match e with
  | None | Some (ErrUnsupportedRegister _) => true
  | Some _ => false
  end.

(** ** Overwriting collaborators

    What it means for the CPU methods the callback calls to be pure
    overwrites: a reset forgets what was written before it, writing the
    same register twice is writing it once, and writes to different
    registers do not interfere. *)

Record pure_overwrites `{Host} (k : CPUClass) : Prop := {
  reset_after_set_pc : ∀ e a, cpu_reset (cc_set_pc k e a) = cpu_reset e;
  reset_after_write : ∀ write e b i,
    cc_gdb_write_register k = Some write → cpu_reset (write e b i) = cpu_reset e;
  write_twice : ∀ write e b i,
    cc_gdb_write_register k = Some write → write (write e b i) b i = write e b i;
  write_commute : ∀ write e b b' i j,
    cc_gdb_write_register k = Some write → 0 ≤ i → 0 ≤ j → i ≠ j →
    write (write e b i) b' j = write (write e b' j) b i;
}.

(** ** A concrete host, to run the embedding on *)

(** Modelled from the spec: the CPU is not in the file; section 6 gives a
    CPU handle a full reset, a program-counter override and a register
    write by index.  Here a CPU is a program counter and 31 registers;
    reset clears them, and a register write stores the eight bytes it is
    handed, read in target byte order. *)
Record regfile := { pc : Z; xregs : list Z }.

Definition regfile_reset (e : regfile) : regfile :=
  {| pc := 0; xregs := replicate 31 0 |}.

Definition ldq_p (big_endian : bool) (buf : list Z) : Z :=
  if big_endian then from_le (rev (take 8 buf)) else from_le (take 8 buf).

(** Loaders for the examples: the ELF loader accepts [kernel.elf] (entry
    0x40000000), the hex loader [boot.hex] (entry 0x100), the raw loader
    anything but [missing.bin]; the U-Boot loader accepts nothing. *)
Definition demo_host (host_be target_be : bool) : Host :=
  {| arch := regfile;
     cpu_reset := regfile_reset;
     HOST_BIG_ENDIAN := host_be;
     target_words_bigendian := target_be;
     load_elf_as f _ _ :=
       if String.eqb f "kernel.elf" then (4096, 1073741824) else (-1, 0);
     load_uimage_as _ _ := (-1, 0);
     load_targphys_hex_as f _ :=
       if String.eqb f "boot.hex" then (64, 256) else (-1, 0);
     load_image_targphys_as f _ max_sz _ :=
       if String.eqb f "missing.bin" then -1 else Z.min 16 max_sz |}.

Definition regfile_class (host_be target_be : bool)
    : @CPUClass (demo_host host_be target_be) :=
  @Build_CPUClass (demo_host host_be target_be)
    (λ (e : regfile) a, {| pc := a; xregs := xregs e |})
    (Some (λ (e : regfile) buf n,
       {| pc := pc e;
          xregs := <[Z.to_nat n := ldq_p target_be buf]> (xregs e) |})).

Definition demo_cpu (host_be target_be : bool) (index : Z) (a : nat)
    : @CPUState (demo_host host_be target_be) :=
  @Build_CPUState (demo_host host_be target_be) index a
    (Some (regfile_class host_be target_be))
    {| pc := 4; xregs := replicate 31 7 |}.

(** A machine with [n] CPUs sharing address space 0, nothing loaded and
    nothing registered. *)
Definition demo_world (host_be target_be : bool) (n : nat) (ready : bool)
    : @World (demo_host host_be target_be) :=
  {| cpus := imap (λ i _, demo_cpu host_be target_be (Z.of_nat i) 0) (replicate n tt);
     spaces := ∅;
     reset_handlers := [];
     load_log := [];
     machine_ready := ready;
     ram_size := 134217728 |}.


(** The errors of the option checks, which come before anything is
    registered or resolved. *)
Definition rejected_by_checks (e : Error) : bool :=
  match e with
  | ErrFileWithData | ErrForceRawWithData | ErrDataLenMissing
  | ErrDataLenTooBig | ErrDataWithImage | ErrDataWithPC | ErrCpuNumMissing
  | ErrNoArguments => true
  | ErrCpuNonexistent _ | ErrCannotLoad _ | ErrUnsupportedRegister _ => false
  end.

(** The device with its properties set: address, data, data length,
    big-endian flag, CPU number, file, register name, force-raw. *)
Definition configure (a d n : Z) (be : bool) (cpu_n : Z)
    (f r : option string) (raw : bool) : GenericLoaderState :=
  {| cpu := None; addr := a; data := d; data_len := n; cpu_num := cpu_n;
     file := f; reg := r; force_raw := raw; data_be := be;
     set_pc := false; attrs := zero_attrs;
     register_defaults := replicate 31 0;
     has_register_defaults := replicate 31 false |}.

(** Register [i] of the CPU at handle [h]. *)
Definition demo_reg (hb tb : bool) (w : @World (demo_host hb tb)) (h i : nat)
    : option Z :=
  c ← cpus w !! h; xregs (@env (demo_host hb tb) c) !! i.

Definition demo_pc (hb tb : bool) (w : @World (demo_host hb tb)) (h : nat)
    : option Z :=
  c ← cpus w !! h; Some (pc (@env (demo_host hb tb) c)).

(** * Properties *)

(** ** Bytes *)

Lemma byte_of_idemp x : byte_of (byte_of x) = byte_of x.
Proof. unfold byte_of. now rewrite <- Z.land_assoc, Z.land_diag. Qed.

Lemma byte_of_range x : 0 ≤ byte_of x < 256.
Proof.
  unfold byte_of. change 255 with (Z.ones 8).
  rewrite Z.land_ones by lia. apply Z.mod_pos_bound. lia.
Qed.

Lemma byte_of_lor_shiftl b r : byte_of (Z.lor (byte_of b) (Z.shiftl r 8)) = byte_of b.
Proof.
  unfold byte_of. rewrite Z.land_lor_distr_l.
  rewrite <- Z.land_assoc, Z.land_diag.
  replace (Z.land (Z.shiftl r 8) 255) with 0; [apply Z.lor_0_r|].
  symmetry. apply Z.bits_inj'. intros n Hn.
  rewrite Z.land_spec, Z.bits_0.
  destruct (Z.ltb_spec n 8).
  - rewrite Z.shiftl_spec_low by lia. reflexivity.
  - change 255 with (Z.ones 8). rewrite Z.ones_spec_high by lia.
    apply andb_false_r.
Qed.

Lemma shiftr_lor_shiftl b r : Z.shiftr (Z.lor (byte_of b) (Z.shiftl r 8)) 8 = r.
Proof.
  rewrite Z.shiftr_lor, Z.shiftr_shiftl_l by lia.
  replace (Z.shiftr (byte_of b) 8) with 0.
  - rewrite Z.lor_0_l. replace (8 - 8) with 0 by lia. apply Z.shiftl_0_r.
  - symmetry. rewrite Z.shiftr_div_pow2 by lia.
    apply Z.div_small. apply byte_of_range.
Qed.

Lemma le_bytes_from_le l : le_bytes (length l) (from_le l) = map byte_of l.
Proof.
  induction l as [|b l IH]; [reflexivity|].
  cbn [length le_bytes from_le map].
  rewrite byte_of_lor_shiftl, shiftr_lor_shiftl, IH. reflexivity.
Qed.

Lemma map_byte_of_le_bytes n x : map byte_of (le_bytes n x) = le_bytes n x.
Proof.
  revert x. induction n as [|n IH]; intros x; [reflexivity|].
  cbn [le_bytes map]. now rewrite byte_of_idemp, IH.
Qed.

Lemma length_le_bytes n x : length (le_bytes n x) = n.
Proof. revert x. induction n as [|n IH]; intros x; cbn; [|rewrite IH]; reflexivity. Qed.

Lemma le_bytes_bswap64 x : le_bytes 8 (bswap64 x) = be_bytes 8 x.
Proof.
  unfold bswap64.
  replace 8%nat with (length (be_bytes 8 x)) at 1
    by (unfold be_bytes; now rewrite length_rev, length_le_bytes).
  rewrite le_bytes_from_le. unfold be_bytes.
  now rewrite map_rev, map_byte_of_le_bytes.
Qed.

Lemma be_bytes_bswap64 x : be_bytes 8 (bswap64 x) = le_bytes 8 x.
Proof.
  unfold be_bytes at 1. rewrite le_bytes_bswap64.
  unfold be_bytes. apply rev_involutive.
Qed.

Section Facts.
Context `{Host}.

(** Whatever the host's byte order, the converted value lies in host
    memory in the byte order the user asked for. *)
Lemma host_image64_be x : host_image64 (cpu_to_be64 x) = be_bytes 8 x.
Proof.
  unfold host_image64, cpu_to_be64. destruct HOST_BIG_ENDIAN; [reflexivity|].
  apply le_bytes_bswap64.
Qed.

Lemma host_image64_le x : host_image64 (cpu_to_le64 x) = le_bytes 8 x.
Proof.
  unfold host_image64, cpu_to_le64. destruct HOST_BIG_ENDIAN; [|reflexivity].
  apply be_bytes_bswap64.
Qed.

(** ** The reset callback, step by step *)

Lemma with_cpus_same (w : World) : with_cpus (cpus w) w = w.
Proof. now destruct w. Qed.

Lemma set_env_same (c : CPUState) : set_env (env c) c = c.
Proof. now destruct c. Qed.

Lemma on_cpu_env h w : on_cpu h env w = w.
Proof.
  unfold on_cpu. destruct w as [cs sp rh ll mr rs]; unfold with_cpus; cbn.
  f_equal. apply list_eq. intros i. rewrite list_lookup_alter.
  destruct (decide (h = i)) as [->|]; [|done].
  destruct (cs !! i) as [c|]; cbn; [|done]. now rewrite set_env_same.
Qed.

Lemma on_cpu_on_cpu h f g w :
  on_cpu h g (on_cpu h f w) = on_cpu h (λ c, g (set_env (f c) c)) w.
Proof.
  unfold on_cpu. destruct w as [cs sp rh ll mr rs]; cbn in *.
  unfold with_cpus; cbn. f_equal.
  rewrite list_alter_alter_eq. apply list_alter_ext; [|done].
  intros c' _. now destruct c'.
Qed.

Lemma on_cpu_lookup h f w c :
  cpus w !! h = Some c → cpus (on_cpu h f w) !! h = Some (set_env (f c) c).
Proof.
  intros Hc. unfold on_cpu; cbn. rewrite list_lookup_alter.
  rewrite decide_True by done. now rewrite Hc.
Qed.

Lemma on_cpu_ext h f g w c :
  cpus w !! h = Some c → f c = g c → on_cpu h f w = on_cpu h g w.
Proof.
  intros Hc Hfg. unfold on_cpu. f_equal. apply list_alter_ext; [|done].
  intros c' Hc'. rewrite Hc in Hc'. injection Hc' as <-. now rewrite Hfg.
Qed.

Lemma update_env_run h f w :
  update_env h f w = Ran tt (on_cpu h (λ c, f (env c)) w).
Proof. reflexivity. Qed.

Lemma deref_cpu_valid h c w :
  cpus w !! h = Some c → deref_cpu (Some h) w = Ran (h, c) w.
Proof. intros Hc. unfold deref_cpu, bind, get, ret. now rewrite Hc. Qed.

Lemma bind_run {A B} (m : M A) (k : A → M B) w a w' :
  m w = Ran a w' → bind m k w = k a w'.
Proof. intros Hm. unfold bind. now rewrite Hm. Qed.

Lemma bind_stop {A B} (m : M A) (k : A → M B) w f w' :
  m w = Stopped f w' → bind m k w = Stopped f w'.
Proof. intros Hm. unfold bind. now rewrite Hm. Qed.

Lemma reset_pc_valid s w h c :
  cpu s = Some h → cpus w !! h = Some c →
  reset_pc s w = Ran tt (on_cpu h (pc_effect s) w).
Proof.
  intros Hh Hc. unfold reset_pc, pc_effect, when.
  destruct (set_pc s); [|unfold ret; now rewrite on_cpu_env].
  rewrite Hh. erewrite bind_run by (apply deref_cpu_valid; eassumption). cbn [fst snd].
  erewrite bind_run by apply update_env_run.
  destruct (cc c) as [k|] eqn:Hcc.
  - rewrite update_env_run, on_cpu_on_cpu. f_equal.
    apply (on_cpu_ext _ _ _ _ c); [done|]. now rewrite Hcc.
  - unfold ret. f_equal. apply (on_cpu_ext _ _ _ _ c); [done|]. now rewrite Hcc.
Qed.

Lemma reset_register_valid s i w h c :
  cpu s = Some h → cpus w !! h = Some c →
  reset_register s i w = Ran tt (on_cpu h (default_effect s i) w).
Proof.
  intros Hh Hc. unfold reset_register, default_effect, when.
  destruct (has_register_defaults s !!! i); [|unfold ret; now rewrite on_cpu_env].
  rewrite Hh. erewrite bind_run by (apply deref_cpu_valid; eassumption). cbn [fst snd].
  destruct (cc c) as [k|] eqn:Hcc.
  - destruct (cc_gdb_write_register k) as [write|] eqn:Hwr.
    + rewrite update_env_run. f_equal.
      apply (on_cpu_ext _ _ _ _ c); [done|]. now rewrite Hcc, Hwr.
    + unfold ret. f_equal. rewrite <- (on_cpu_env h w) at 1.
      apply (on_cpu_ext _ _ _ _ c); [done|]. now rewrite Hcc, Hwr.
  - unfold ret. f_equal. rewrite <- (on_cpu_env h w) at 1.
    apply (on_cpu_ext _ _ _ _ c); [done|]. now rewrite Hcc.
Qed.

Lemma for_each_registers_valid s l w h c :
  cpu s = Some h → cpus w !! h = Some c →
  for_each l (reset_register s) w = Ran tt (on_cpu h (defaults_effect s l) w).
Proof.
  intros Hh. revert w c. induction l as [|i l IH]; intros w c Hc.
  - cbn. unfold ret. now rewrite on_cpu_env.
  - cbn [for_each defaults_effect].
    erewrite bind_run by (eapply reset_register_valid; eassumption).
    erewrite IH by (apply on_cpu_lookup; eassumption).
    now rewrite on_cpu_on_cpu.
Qed.

(** The loop does nothing when none of its slots is populated. *)
Lemma for_each_registers_none s l w :
  (∀ i, i ∈ l → has_register_defaults s !!! i = false) →
  for_each l (reset_register s) w = Ran tt w.
Proof.
  induction l as [|i l IH]; intros Hl; [reflexivity|].
  cbn [for_each]. unfold bind, reset_register at 1, when.
  rewrite (Hl i) by left. cbn. apply IH. intros j Hj. apply Hl. now right.
Qed.

Lemma reset_data_valid s w h c :
  cpu s = Some h → cpus w !! h = Some c →
  reset_data s w =
    if data_len s =? 0 then Ran tt w
    else if data_len s <? 8 then Ran tt (data_effect s (as_ c) w)
    else Stopped AssertionFailed w.
Proof.
  intros Hh Hc. unfold reset_data, when.
  destruct (data_len s =? 0); [reflexivity|]. cbn [negb].
  unfold assert, sizeof_data.
  destruct (data_len s <? 8); [|reflexivity].
  unfold bind at 1, ret at 1.
  rewrite Hh. erewrite bind_run by (apply deref_cpu_valid; eassumption). reflexivity.
Qed.

(** A run of the reset callback on a machine where the device's CPU
    handle is valid. *)
Lemma generic_loader_reset_valid s w h c :
  cpu s = Some h → cpus w !! h = Some c →
  generic_loader_reset s w =
    let w1 := on_cpu h (cpu_effect s) w in
    if data_len s =? 0 then Ran tt w1
    else if data_len s <? 8 then Ran tt (data_effect s (as_ c) w1)
    else Stopped AssertionFailed w1.
Proof.
  intros Hh Hc. unfold generic_loader_reset, cpu_effect. cbv zeta.
  erewrite bind_run by (eapply reset_pc_valid; eassumption).
  erewrite bind_run
    by (eapply for_each_registers_valid; [eassumption|apply on_cpu_lookup; eassumption]).
  rewrite on_cpu_on_cpu.
  erewrite reset_data_valid by (try eassumption; apply on_cpu_lookup; eassumption).
  reflexivity.
Qed.

(** ... and on a machine where it is not: nothing is changed, and the
    first step that needs the CPU stops the run. *)
Lemma deref_cpu_cases p w :
  (∃ h c, p = Some h ∧ cpus w !! h = Some c) ∨
  deref_cpu p w = Stopped NullDereference w.
Proof.
  unfold deref_cpu, bind, get. destruct p as [h|]; [|now right].
  destruct (cpus w !! h) as [c|] eqn:Hc; [left; eauto|now right].
Qed.

Lemma reset_pc_invalid s w :
  deref_cpu (cpu s) w = Stopped NullDereference w →
  reset_pc s w = if set_pc s then Stopped NullDereference w else Ran tt w.
Proof.
  intros Hd. unfold reset_pc, when. destruct (set_pc s); [|reflexivity].
  now apply bind_stop.
Qed.

Lemma for_each_registers_invalid s l w :
  deref_cpu (cpu s) w = Stopped NullDereference w →
  for_each l (reset_register s) w =
    if existsb (λ i, has_register_defaults s !!! i) l
    then Stopped NullDereference w else Ran tt w.
Proof.
  intros Hd. induction l as [|i l IH]; [reflexivity|].
  cbn [for_each existsb]. unfold bind at 1, reset_register at 1, when.
  destruct (has_register_defaults s !!! i); cbn [orb].
  - now erewrite bind_stop by eassumption.
  - exact IH.
Qed.

Lemma reset_data_invalid s w :
  deref_cpu (cpu s) w = Stopped NullDereference w →
  reset_data s w =
    if data_len s =? 0 then Ran tt w
    else if data_len s <? 8 then Stopped NullDereference w
    else Stopped AssertionFailed w.
Proof.
  intros Hd. unfold reset_data, when.
  destruct (data_len s =? 0); [reflexivity|]. cbn [negb].
  unfold assert, sizeof_data. destruct (data_len s <? 8); [|reflexivity].
  unfold bind at 1, ret at 1. now apply bind_stop.
Qed.

Lemma generic_loader_reset_invalid_eq s w :
  deref_cpu (cpu s) w = Stopped NullDereference w →
  generic_loader_reset s w =
    if set_pc s then Stopped NullDereference w
    else if existsb (λ i, has_register_defaults s !!! i) (seq 0 31)
    then Stopped NullDereference w
    else if data_len s =? 0 then Ran tt w
    else if data_len s <? 8 then Stopped NullDereference w
    else Stopped AssertionFailed w.
Proof.
  intros Hd. unfold generic_loader_reset.
  unfold bind at 1. rewrite reset_pc_invalid by done.
  destruct (set_pc s); [reflexivity|]. cbv beta iota.
  unfold bind at 1. rewrite for_each_registers_invalid by done.
  destruct (existsb _ _); [reflexivity|]. cbv beta iota.
  now apply reset_data_invalid.
Qed.

Lemma generic_loader_reset_invalid s w :
  deref_cpu (cpu s) w = Stopped NullDereference w →
  generic_loader_reset s w = Ran tt w ∨
  ∃ f, generic_loader_reset s w = Stopped f w.
Proof.
  intros Hd. rewrite generic_loader_reset_invalid_eq by done.
  destruct (set_pc s); [right; eauto|].
  destruct (existsb _ _); [right; eauto|].
  destruct (data_len s =? 0); [now left|].
  destruct (data_len s <? 8); right; eauto.
Qed.

(** The reset callback leaves the reset registry, the loader log, the
    machine phase and the number of CPUs as they are. *)
Lemma generic_loader_reset_frame s w :
  let w' := world_of (generic_loader_reset s w) in
  reset_handlers w' = reset_handlers w ∧ load_log w' = load_log w ∧
  machine_ready w' = machine_ready w ∧ ram_size w' = ram_size w ∧
  length (cpus w') = length (cpus w).
Proof.
  cbv zeta. destruct (deref_cpu_cases (cpu s) w) as [(h & c & Hh & Hc)|Hd].
  - rewrite (generic_loader_reset_valid s w h c Hh Hc). cbv zeta.
    destruct (data_len s =? 0); [|destruct (data_len s <? 8)];
      unfold world_of, data_effect, on_cpu, with_spaces, with_cpus;
      cbn [reset_handlers load_log machine_ready ram_size cpus];
      now rewrite length_alter.
  - destruct (generic_loader_reset_invalid s w Hd) as [->|[f ->]];
      unfold world_of; auto.
Qed.

(** ** Setup, step by step *)

Lemma with_addr_same s : with_addr (addr s) s = s.
Proof. now destruct s. Qed.

Lemma logged_logged cs1 cs2 w : logged cs2 (logged cs1 w) = logged (cs1 ++ cs2) w.
Proof. unfold logged, with_load_log; cbn. now rewrite app_assoc. Qed.

(** The options that pass the checks, by mode. *)
Lemma check_options_ok s s1 :
  check_options s = (s1, None) →
  (data_given s = true ∧ file s = None ∧ force_raw s = false ∧
   data_len s ≠ 0 ∧ data_len s ≤ 8 ∧ s1 = with_set_pc false s) ∨
  (data_given s = false ∧ (is_Some (file s) ∨ force_raw s = true) ∧
   s1 = with_set_pc (negb (cpu_num s =? CPU_NONE)) s) ∨
  (data_given s = false ∧ file s = None ∧ force_raw s = false ∧
   addr s ≠ 0 ∧ cpu_num s ≠ CPU_NONE ∧ s1 = with_set_pc true s).
Proof.
  unfold check_options.
  change (data_given (with_set_pc false s)) with (data_given s).
  cbn [file force_raw data_len cpu_num addr with_set_pc].
  destruct (data_given s) eqn:Hd.
  - case_bool_decide as Hf; [discriminate|].
    destruct (force_raw s) eqn:Hr; [discriminate|].
    destruct (Z.eqb_spec (data_len s) 0); [discriminate|].
    destruct (Z.ltb_spec 8 (data_len s)); [discriminate|].
    intros [= <-]. left. repeat split; try done; try lia.
    destruct (file s); [exfalso; apply Hf; eauto|done].
  - case_bool_decide as Hf; cbn [orb].
    + destruct (Z.eqb_spec (cpu_num s) CPU_NONE) as [He|He]; cbn [negb];
        intros [= <-]; right; left; repeat split; auto.
    + destruct (force_raw s) eqn:Hr.
      * destruct (Z.eqb_spec (cpu_num s) CPU_NONE) as [He|He]; cbn [negb];
          intros [= <-]; right; left; repeat split; auto.
      * destruct (Z.eqb_spec (addr s) 0) as [Ha|Ha]; cbn [negb]; [discriminate|].
        destruct (Z.eqb_spec (cpu_num s) CPU_NONE) as [He|He]; [discriminate|].
        intros [= <-]. right; right. repeat split; try done.
        destruct (file s); [exfalso; apply Hf; eauto|done].
Qed.

(** Setup once the options have passed the checks. *)
Lemma generic_loader_realize_checked dev s s1 w :
  check_options s = (s1, None) →
  generic_loader_realize dev s w =
    let w1 := registered dev w in
    let s2 := resolve_cpu s1 w1 in
    if negb (cpu_num s2 =? CPU_NONE) && negb (bool_decide (is_Some (cpu s2)))
    then Ran (s2, Some (ErrCpuNonexistent (int_of_uint32 (cpu_num s2)))) w1
    else
      match load_image s2 w1 with
      | Ran (s3, Some e) w2 => Ran (s3, Some e) w2
      | Ran (s3, None) w2 => finish_realize s3 w2
      | Stopped f w2 => Stopped f w2
      end.
Proof.
  intros Hc. unfold generic_loader_realize. rewrite Hc. cbv zeta.
  unfold bind at 1, qemu_register_reset_loader, modify.
  unfold bind at 1, get. fold (registered dev w).
  destruct (negb _ && negb _); [reflexivity|].
  unfold bind. destruct (load_image _ _) as [[s3 [e|]] w2|f w2]; reflexivity.
Qed.

(** The code's loader sequence is the one of section 4.3. *)
Lemma load_image_sequencer s f w :
  file s = Some f →
  (∀ h, cpu s = Some h → is_Some (cpus w !! h)) →
  load_image s w =
    match spec_sequencer f (force_raw s) (addr s) (ram_size w) (loader_space s w) with
    | (cs, inl a) => Ran (with_addr a s, None) (logged cs w)
    | (cs, inr e) => Ran (s, Some e) (logged cs w)
    end.
Proof.
  intros Hf Hv. unfold load_image. rewrite Hf.
  assert (Ha : (match cpu s with
                | Some _ => hc <- deref_cpu (cpu s); ret (Some (as_ hc.2))
                | None => ret None
                end) w = Ran (loader_space s w) w).
  { unfold loader_space. destruct (cpu s) as [h|]; [|reflexivity].
    destruct (Hv h eq_refl) as [c Hc].
    erewrite bind_run by (apply deref_cpu_valid; eassumption).
    rewrite Hc. reflexivity. }
  erewrite bind_run by exact Ha. clear Ha.
  generalize (loader_space s w) as a. intros a.
  unfold spec_sequencer, sequencer_order.
  destruct (force_raw s) eqn:Hr; cbn [negb].
  - unfold bind, ret, get, call_raw, modify, logged, with_load_log; simpl.
    destruct (load_image_targphys_as f (addr s) (ram_size w) a <? 0); simpl;
      [reflexivity|now rewrite with_addr_same].
  - unfold bind, ret, get, call_elf, call_uimage, call_hex, call_raw, modify,
      logged, with_load_log, attempt. simpl.
    destruct (load_elf_as f target_words_bigendian a) as [n1 e1].
    simpl.
    destruct (n1 <? 0) eqn:E1; simpl; repeat (rewrite E1; simpl); [|reflexivity].
    destruct (load_uimage_as f a) as [n2 e2].
    simpl.
    destruct (n2 <? 0) eqn:E2; simpl; repeat (rewrite E2; simpl);
      [|rewrite <- app_assoc; reflexivity].
    destruct (load_targphys_hex_as f a) as [n3 e3].
    simpl.
    destruct (n3 <? 0) eqn:E3; simpl; repeat (rewrite E3; simpl);
      [|rewrite <- !app_assoc; reflexivity].
    destruct (load_image_targphys_as f (addr s) (ram_size w) a <? 0); simpl;
      rewrite <- !app_assoc; [reflexivity|now rewrite with_addr_same].
Qed.

Lemma find_cpu_valid index k cs h :
  find_cpu index k cs = Some h →
  (k ≤ h)%nat ∧ ∃ c, cs !! (h - k)%nat = Some c ∧ cpu_index c = index.
Proof.
  revert k. induction cs as [|c cs IH]; intros k; [discriminate|].
  cbn [find_cpu]. destruct (Z.eqb_spec (cpu_index c) index) as [He|He].
  - intros [= <-]. split; [lia|]. exists c. now rewrite Nat.sub_diag.
  - intros Hf. destruct (IH _ Hf) as (Hle & c' & Hc' & Hi). split; [lia|].
    exists c'. split; [|done].
    replace (h - k)%nat with (S (h - S k)) by lia. exact Hc'.
Qed.

Lemma qemu_get_cpu_valid n w h :
  qemu_get_cpu n w = Some h →
  ∃ c, cpus w !! h = Some c ∧ cpu_index c = int_of_uint32 n.
Proof.
  intros Hf. destruct (find_cpu_valid _ _ _ _ Hf) as (_ & c & Hc & Hi).
  exists c. now rewrite Nat.sub_0_r in Hc.
Qed.

Lemma first_cpu_valid w h :
  first_cpu w = Some h → h = 0%nat ∧ is_Some (cpus w !! h).
Proof.
  unfold first_cpu. destruct (cpus w) as [|c cs]; [discriminate|].
  intros [= <-]. split; [done|]. now exists c.
Qed.

(** The CPU handle setup resolves names a CPU of the machine. *)
Lemma resolve_cpu_valid s w h :
  cpu (resolve_cpu s w) = Some h → is_Some (cpus w !! h).
Proof.
  unfold resolve_cpu. destruct (negb _); cbn [cpu with_cpu]; intros Hh.
  - destruct (qemu_get_cpu_valid _ _ _ Hh) as (c & Hc & _). now exists c.
  - now destruct (first_cpu_valid _ _ Hh).
Qed.

Lemma finish_realize_run s w :
  finish_realize s w =
    if machine_ready w then
      match generic_loader_reset (convert_data s) w with
      | Ran _ w' => Ran (store_register_default (convert_data s)) w'
      | Stopped f w' => Stopped f w'
      end
    else Ran (store_register_default (convert_data s)) w.
Proof.
  unfold finish_realize. cbv zeta. unfold bind at 1, get. unfold bind, when.
  destruct (machine_ready w); reflexivity.
Qed.

(** What a setup that got through its last stage returned. *)
Lemma finish_realize_result s w s' e w' :
  finish_realize s w = Ran (s', e) w' →
  store_register_default (convert_data s) = (s', e) ∧
  (if machine_ready w then generic_loader_reset (convert_data s) w = Ran tt w'
   else w' = w).
Proof.
  rewrite finish_realize_run. destruct (machine_ready w).
  - destruct (generic_loader_reset _ _) as [[] w2|f w2]; [|discriminate].
    intros Hrun. injection Hrun as Hs <-. split; [|done].
    destruct (store_register_default _). now inversion Hs.
  - intros Hrun. injection Hrun as Hs <-. split; [|done].
    destruct (store_register_default _). now inversion Hs.
Qed.

End Facts.

Section MoreFacts.
Context `{Host}.

Lemma logged_nil w : logged [] w = w.
Proof. unfold logged, with_load_log. rewrite app_nil_r. now destruct w. Qed.

(** The image step either runs, changing only the address and the loader
    log, or stops at a CPU handle that names no CPU. *)
Lemma load_image_cases s w :
  (∃ cs a e, load_image s w = Ran (with_addr a s, e) (logged cs w) ∧
             (e = None ∨ ∃ f, file s = Some f ∧ e = Some (ErrCannotLoad f))) ∨
  load_image s w = Stopped NullDereference w.
Proof.
  destruct (file s) as [f|] eqn:Hf.
  - destruct (cpu s) as [h|] eqn:Hh.
    + destruct (cpus w !! h) as [c|] eqn:Hc.
      * left. rewrite (load_image_sequencer s f w Hf)
          by (intros h' Hh'; rewrite Hh in Hh'; injection Hh' as <-; eauto).
        destruct (spec_sequencer _ _ _ _ _) as [cs [a|e]] eqn:Hs.
        -- exists cs, a, None. auto.
        -- exists cs, (addr s), (Some e). rewrite with_addr_same. split; [done|].
           right. exists f. split; [done|]. f_equal.
           unfold spec_sequencer in Hs.
           destruct (first_success _ _ _ _ _) as [cs' [[?|]|]];
             now inversion Hs.
      * right. unfold load_image. rewrite Hf, Hh. rewrite <- Hh.
        apply bind_stop. apply bind_stop.
        unfold deref_cpu, bind, get. now rewrite Hh, Hc.
    + left. rewrite (load_image_sequencer s f w Hf)
        by (intros h' Hh'; now rewrite Hh in Hh').
      destruct (spec_sequencer _ _ _ _ _) as [cs [a|e]] eqn:Hs.
      * exists cs, a, None. auto.
      * exists cs, (addr s), (Some e). rewrite with_addr_same. split; [done|].
        right. exists f. split; [done|]. f_equal.
        unfold spec_sequencer in Hs.
        destruct (first_success _ _ _ _ _) as [cs' [[?|]|]]; now inversion Hs.
  - left. exists [], (addr s), None. unfold load_image. rewrite Hf.
    rewrite with_addr_same, logged_nil. auto.
Qed.

Lemma check_options_error s s1 e :
  check_options s = (s1, Some e) → rejected_by_checks e = true.
Proof.
  unfold check_options.
  repeat match goal with
         | |- context [if ?b then _ else _] => destruct b
         end; intros [= _ <-]; reflexivity.
Qed.

Lemma store_register_default_error s s' e :
  store_register_default s = (s', Some e) →
  ∃ r, reg s = Some r ∧ e = ErrUnsupportedRegister r ∧ s' = s.
Proof.
  unfold store_register_default. destruct (reg s) as [r|]; [|discriminate].
  destruct (sscanf_r_d r) as [n|]; [destruct (_ && _)|]; intros [= <- <-]; eauto.
Qed.

Lemma store_register_default_fields s s' e :
  store_register_default s = (s', e) →
  addr s' = addr s ∧ data s' = data s ∧ data_len s' = data_len s ∧
  cpu s' = cpu s ∧ set_pc s' = set_pc s.
Proof.
  unfold store_register_default. destruct (reg s) as [r|]; [|now intros [= <- _]].
  destruct (sscanf_r_d r) as [n|]; [destruct (_ && _)|]; now intros [= <- _].
Qed.

(** A setup that succeeds, stage by stage. *)
Lemma generic_loader_realize_ok dev s s' w w' :
  generic_loader_realize dev s w = Ran (s', None) w' →
  ∃ s1 cs a,
    let w1 := registered dev w in
    let s2 := resolve_cpu s1 w1 in
    let s3 := convert_data (with_addr a s2) in
    check_options s = (s1, None) ∧
    (cpu_num s1 = CPU_NONE ∨ is_Some (cpu s2)) ∧
    load_image s2 w1 = Ran (with_addr a s2, None) (logged cs w1) ∧
    store_register_default s3 = (s', None) ∧
    (if machine_ready w
     then generic_loader_reset s3 (logged cs w1) = Ran tt w'
     else w' = logged cs w1).
Proof.
  destruct (check_options s) as [s1 [e1|]] eqn:Hc.
  { unfold generic_loader_realize. rewrite Hc. discriminate. }
  rewrite (generic_loader_realize_checked dev s s1 w Hc). cbv zeta.
  destruct (negb _ && negb _) eqn:Hno; [discriminate|].
  destruct (load_image_cases (resolve_cpu s1 (registered dev w)) (registered dev w))
    as [(cs & a & e2 & Hl & He2)| ->]; [|discriminate].
  rewrite Hl. destruct He2 as [->|(f & _ & ->)]; [|discriminate].
  rewrite finish_realize_run.
  change (machine_ready (logged cs (registered dev w))) with (machine_ready w).
  intros Hfin. exists s1, cs, a. cbv zeta. split; [done|]. split.
  { apply andb_false_iff in Hno as [Hno|Hno].
    - left. apply negb_false_iff in Hno.
      assert (cpu_num (resolve_cpu s1 (registered dev w)) = cpu_num s1) as <-
        by (unfold resolve_cpu; now destruct (negb _)).
      now apply Z.eqb_eq.
    - right. apply negb_false_iff in Hno. now apply bool_decide_eq_true in Hno. }
  split; [done|].
  destruct (machine_ready w).
  - destruct (generic_loader_reset _ _) as [[] w2|f w2]; [|discriminate].
    injection Hfin as Hs <-. split; [|done].
    destruct (store_register_default _) as [s'' e'']. now inversion Hs.
  - injection Hfin as Hs <-. split; [|done].
    destruct (store_register_default _) as [s'' e'']. now inversion Hs.
Qed.

Lemma check_options_fields s s1 e :
  check_options s = (s1, e) → ∃ b, s1 = with_set_pc b s.
Proof.
  unfold check_options.
  repeat match goal with
         | |- context [if ?b then _ else _] => destruct b
         end; intros [= <- _]; eauto.
Qed.

Lemma resolve_cpu_fields s w :
  ∃ p, resolve_cpu s w = with_cpu p s.
Proof. unfold resolve_cpu. destruct (negb _); eauto. Qed.

(** What a setup that succeeds leaves in the device state. *)
Lemma generic_loader_realize_ok_fields dev s s' w w' :
  generic_loader_realize dev s w = Ran (s', None) w' →
  ∃ s1,
    check_options s = (s1, None) ∧
    data_len s' = data_len s ∧
    data s' = (if data_be s then cpu_to_be64 (data s) else cpu_to_le64 (data s)) ∧
    set_pc s' = set_pc s1 ∧
    cpu s' = cpu (resolve_cpu s1 (registered dev w)) ∧
    (file s = None → addr s' = addr s).
Proof.
  intros Hr. destruct (generic_loader_realize_ok _ _ _ _ _ Hr)
    as (s1 & cs & a & Hc & _ & Hl & Hs & _).
  exists s1. split; [done|].
  destruct (store_register_default_fields _ _ _ Hs) as (Ha & Hd & Hn & Hcpu & Hpc).
  destruct (check_options_fields _ _ _ Hc) as [b ->].
  destruct (resolve_cpu_fields (with_set_pc b s) (registered dev w)) as [p Hp].
  rewrite Hp in *. rewrite Ha, Hd, Hn, Hcpu, Hpc. repeat split; try reflexivity.
  intros Hf. unfold load_image in Hl. cbn [file with_cpu with_set_pc] in Hl.
  rewrite Hf in Hl. unfold ret in Hl. injection Hl as Hl _.
  cbn. congruence.
Qed.

(** ** Memory writes *)

Lemma write_bytes_lookup m x bs y :
  write_bytes m x bs !! y =
    if bool_decide (x ≤ y < x + Z.of_nat (length bs))
    then bs !! Z.to_nat (y - x) else m !! y.
Proof.
  revert m x. induction bs as [|b bs IH]; intros m x.
  - cbn. now rewrite bool_decide_false by lia.
  - cbn [write_bytes length]. rewrite IH.
    destruct (decide (y = x)) as [->|Hne].
    + rewrite bool_decide_false by lia. rewrite bool_decide_true by lia.
      rewrite lookup_insert_eq. now rewrite Z.sub_diag.
    + rewrite lookup_insert_ne by done.
      case_bool_decide as H1; case_bool_decide as H2; try lia; [|done].
      replace (Z.to_nat (y - x)) with (S (Z.to_nat (y - (x + 1)))) by lia.
      reflexivity.
Qed.

Lemma write_bytes_idemp m x bs :
  write_bytes (write_bytes m x bs) x bs = write_bytes m x bs.
Proof.
  apply map_eq. intros y. rewrite !write_bytes_lookup.
  now case_bool_decide.
Qed.

Lemma data_effect_idemp s a w :
  data_effect s a (data_effect s a w) = data_effect s a w.
Proof.
  unfold data_effect, with_spaces. cbn. f_equal.
  rewrite lookup_total_insert_eq, insert_insert_eq.
  now rewrite write_bytes_idemp.
Qed.

Lemma peek_data_effect s a w b x :
  peek (data_effect s a w) b x =
    let bytes := take (Z.to_nat (data_len s)) (host_image64 (data s)) in
    if bool_decide (b = a ∧ addr s ≤ x < addr s + Z.of_nat (length bytes))
    then bytes !! Z.to_nat (x - addr s) else peek w b x.
Proof.
  cbv zeta. unfold peek, data_effect, with_spaces. cbn [spaces].
  destruct (decide (b = a)) as [->|Hne].
  - rewrite lookup_total_insert_eq, write_bytes_lookup.
    case_bool_decide as H1; case_bool_decide as H2; try done.
    + exfalso. apply H2. split; [done|lia].
    + exfalso. apply H1. lia.
  - rewrite lookup_total_insert_ne by done.
    rewrite bool_decide_false; [done|]. now intros [? _].
Qed.

Lemma peek_on_cpu h f w a x : peek (on_cpu h f w) a x = peek w a x.
Proof. reflexivity. Qed.

End MoreFacts.

(** * Setup and reset *)

(** ** Validation *)

(** C6: a configuration in which a data field is set (non-zero data,
    non-zero data length or the big-endian flag) together with a file or
    the force-raw flag fails at the first rule, with the error that says
    data and image exclude each other: the one about the file when a file
    is given, else the one about force-raw.  No later rule is reached,
    and nothing is registered or changed. *)
Theorem data_with_image_rejected `{Host} dev s w :
  data_given s = true →
  is_Some (file s) ∨ force_raw s = true →
  generic_loader_realize dev s w =
    Ran (with_set_pc false s,
         Some (if bool_decide (is_Some (file s)) then ErrFileWithData
               else ErrForceRawWithData)) w.
Proof.
  intros Hd Hi. unfold generic_loader_realize, check_options.
  change (data_given (with_set_pc false s)) with (data_given s). rewrite Hd.
  cbn [file force_raw with_set_pc].
  case_bool_decide as Hf; [reflexivity|].
  destruct Hi as [Hi|Hi]; [contradiction|]. now rewrite Hi.
Qed.

Lemma data_with_image_rejected_witness :
  let s := configure 0 0 4 false CPU_NONE (Some "kernel.elf"%string) None false in
  let w := demo_world false false 1 false in
  generic_loader_realize (H := demo_host false false) 0 s w =
    Ran (with_set_pc false s, Some ErrFileWithData) w.
Proof.
  intros s w.
  apply (data_with_image_rejected (H := demo_host false false) 0%nat s w).
  - reflexivity.
  - left. now exists "kernel.elf"%string.
Defined.

(** ** The image loaders *)

(** C5: with a file configured, options that pass the checks and a CPU
    that resolves, setup makes the loader attempts of section 4.3:
    structured executable, boot image, hex record, raw binary, in this
    order, stopping at the first that reports a non-negative size, and
    only the raw one under force-raw; the raw load goes to the configured
    address and is capped at the machine's memory size.  The attempts are
    the calls setup adds to the loader log, whatever happens afterwards.
    When setup returns, the address of the device is the entry reported
    by the structured, boot-image or hex loader that won, and the
    configured address when the raw load won; when the last attempt
    reports a negative size setup fails with [ErrCannotLoad] and the
    address is the configured one. *)
Theorem image_load_order `{Host} dev s s1 f w :
  file s = Some f →
  check_options s = (s1, None) →
  cpu_num s = CPU_NONE ∨ is_Some (qemu_get_cpu (cpu_num s) w) →
  let w1 := registered dev w in
  let s2 := resolve_cpu s1 w1 in
  let sp := loader_space s2 w1 in
  let run := spec_sequencer f (force_raw s) (addr s) (ram_size w) sp in
  let elf := load_elf_as f target_words_bigendian sp in
  let uimage := load_uimage_as f sp in
  let hex := load_targphys_hex_as f sp in
  let raw := load_image_targphys_as f (addr s) (ram_size w) sp in
  let raw_attempt (before : list LoadCall) :=
    (before ++ [CallRaw f (addr s) (ram_size w) sp raw],
     if raw <? 0 then inr (ErrCannotLoad f) else inl (addr s)) in
  generic_loader_realize dev s w =
    match run with
    | (cs, inl a) => finish_realize (with_addr a s2) (logged cs w1)
    | (cs, inr e) => Ran (s2, Some e) (logged cs w1)
    end ∧
  load_log (world_of (generic_loader_realize dev s w)) = load_log w ++ run.1 ∧
  (∀ s' e w', generic_loader_realize dev s w = Ran (s', e) w' →
     match run.2 with
     | inl a => addr s' = a
     | inr err => e = Some err ∧ addr s' = addr s
     end) ∧
  run =
    (if force_raw s then raw_attempt []
     else if negb (elf.1 <? 0)
       then ([CallElf f target_words_bigendian sp elf.1], inl elf.2)
     else if negb (uimage.1 <? 0)
       then ([CallElf f target_words_bigendian sp elf.1;
              CallUimage f sp uimage.1], inl uimage.2)
     else if negb (hex.1 <? 0)
       then ([CallElf f target_words_bigendian sp elf.1;
              CallUimage f sp uimage.1; CallHex f sp hex.1], inl hex.2)
     else raw_attempt [CallElf f target_words_bigendian sp elf.1;
                       CallUimage f sp uimage.1; CallHex f sp hex.1]).
Proof.
  intros Hf Hc Hcpu w1 s2 sp run elf uimage hex raw raw_attempt.
  assert (Hs1 : ∃ b, s1 = with_set_pc b s).
  { destruct (check_options_ok s s1 Hc) as [(_&_&_&_&_&->)|[(_&_&->)|(_&_&_&_&_&->)]];
      eauto. }
  destruct Hs1 as [b ->].
  assert (Hfields : file s2 = Some f ∧ force_raw s2 = force_raw s ∧
                    addr s2 = addr s ∧ cpu_num s2 = cpu_num s).
  { unfold s2, resolve_cpu. destruct (negb _); cbn; auto. }
  destruct Hfields as (Hf2 & Hr2 & Ha2 & Hn2).
  assert (Heq : generic_loader_realize dev s w =
                  match run with
                  | (cs, inl a) => finish_realize (with_addr a s2) (logged cs w1)
                  | (cs, inr e) => Ran (s2, Some e) (logged cs w1)
                  end).
  { rewrite (generic_loader_realize_checked dev s _ w Hc). cbv zeta.
    fold w1. fold s2.
    assert (Hno : negb (cpu_num s2 =? CPU_NONE)
                  && negb (bool_decide (is_Some (cpu s2))) = false).
    { rewrite Hn2. destruct (Z.eqb_spec (cpu_num s) CPU_NONE) as [He|He];
        [reflexivity|].
      destruct Hcpu as [?|Hq]; [contradiction|].
      cbn [negb andb]. unfold s2, resolve_cpu. cbn [cpu_num with_set_pc].
      destruct (Z.eqb_spec (cpu_num s) CPU_NONE); [contradiction|].
      cbn [negb cpu with_cpu]. now rewrite bool_decide_true. }
    rewrite Hno.
    rewrite (load_image_sequencer s2 f w1 Hf2)
      by (intros h Hh; now apply (resolve_cpu_valid _ _ _ Hh)).
    rewrite Hr2, Ha2. change (ram_size w1) with (ram_size w).
    fold sp. fold run.
    destruct run as [cs [a|e]]; reflexivity. }
  assert (Hrun : run =
    (if force_raw s then raw_attempt []
     else if negb (elf.1 <? 0)
       then ([CallElf f target_words_bigendian sp elf.1], inl elf.2)
     else if negb (uimage.1 <? 0)
       then ([CallElf f target_words_bigendian sp elf.1;
              CallUimage f sp uimage.1], inl uimage.2)
     else if negb (hex.1 <? 0)
       then ([CallElf f target_words_bigendian sp elf.1;
              CallUimage f sp uimage.1; CallHex f sp hex.1], inl hex.2)
     else raw_attempt [CallElf f target_words_bigendian sp elf.1;
                       CallUimage f sp uimage.1; CallHex f sp hex.1])).
  { unfold run, spec_sequencer, sequencer_order, raw_attempt.
    destruct (force_raw s).
    - unfold first_success, attempt. fold raw.
      destruct (raw <? 0); reflexivity.
    - unfold first_success, attempt. fold elf. fold uimage. fold hex. fold raw.
      cbv zeta.
      destruct (elf.1 <? 0); [|reflexivity].
      destruct (uimage.1 <? 0); [|reflexivity].
      destruct (hex.1 <? 0); [|reflexivity].
      destruct (raw <? 0); reflexivity. }
  split; [exact Heq|]. split; [|split; [|exact Hrun]].
  - rewrite Heq. destruct run as [cs [a|e]]; [|reflexivity].
    rewrite finish_realize_run.
    change (machine_ready (logged cs w1)) with (machine_ready w).
    destruct (machine_ready w); [|reflexivity].
    pose proof (generic_loader_reset_frame
                  (convert_data (with_addr a s2)) (logged cs w1)) as (_ & Hlog & _).
    cbv zeta in Hlog.
    destruct (generic_loader_reset _ _) as [[] w2|fl w2]; exact Hlog.
  - intros s' e w' Hran. rewrite Heq in Hran.
    destruct run as [cs [a|err]]; cbn [snd].
    + apply finish_realize_result in Hran as [Hst _].
      apply store_register_default_fields in Hst as (Ha & _).
      rewrite Ha. reflexivity.
    + injection Hran as <- <- _. split; [reflexivity|exact Ha2].
Qed.

Lemma image_load_order_witness :
  let H := demo_host false false in
  let s := configure 16 0 0 false 0 (Some "boot.hex"%string) None false in
  let w := demo_world false false 1 false in
  let calls := [CallElf "boot.hex" false (Some 0%nat) (-1);
                CallUimage "boot.hex" (Some 0%nat) (-1);
                CallHex "boot.hex" (Some 0%nat) 64] in
  generic_loader_realize 0 s w =
    finish_realize
      (with_addr 256 (with_cpu (Some 0%nat) (with_set_pc true s)))
      (logged calls (registered 0 w)) ∧
  load_log (world_of (generic_loader_realize 0 s w)) = load_log w ++ calls ∧
  (∀ s' e w', generic_loader_realize 0 s w = Ran (s', e) w' → addr s' = 256) ∧
  spec_sequencer "boot.hex" false 16 134217728 (Some 0%nat) = (calls, inl 256).
Proof.
  intros H s w calls.
  apply (image_load_order (H := H) 0%nat s
           (with_set_pc true s) "boot.hex"%string w).
  - reflexivity.
  - reflexivity.
  - right. now exists 0%nat.
Defined.

(** ** Failed setup *)

(** C1: what a failed setup leaves behind.  When one of the option
    checks fails the machine is untouched.  When setup fails later (the
    CPU does not exist, the image cannot be loaded, the register name is
    not supported) the reset callback registered at line 150 is still in
    the registry. *)
Theorem failed_setup_registration `{Host} dev s s' e w w' :
  generic_loader_realize dev s w = Ran (s', Some e) w' →
  if rejected_by_checks e then w' = w
  else reset_handlers w' = reset_handlers w ++ [dev].
Proof.
  destruct (check_options s) as [s1 [e1|]] eqn:Hc.
  - unfold generic_loader_realize. rewrite Hc. intros [= <- <- <-].
    now rewrite (check_options_error _ _ _ Hc).
  - rewrite (generic_loader_realize_checked dev s s1 w Hc). cbv zeta.
    destruct (negb _ && negb _); [now intros [= <- <- <-]|].
    destruct (load_image_cases (resolve_cpu s1 (registered dev w)) (registered dev w))
      as [(cs & a & e2 & -> & He2)| ->]; [|discriminate].
    destruct He2 as [->|(f & _ & ->)]; [|now intros [= <- <- <-]].
    rewrite finish_realize_run.
    change (machine_ready (logged cs (registered dev w))) with (machine_ready w).
    destruct (machine_ready w).
    + pose proof (generic_loader_reset_frame
        (convert_data (with_addr a (resolve_cpu s1 (registered dev w))))
        (logged cs (registered dev w))) as Hfr. cbv zeta in Hfr.
      destruct (generic_loader_reset _ _) as [[] w2|f w2]; [|discriminate].
      intros Hs. injection Hs as Hs <-.
      destruct (store_register_default_error _ _ _ Hs) as (r & _ & -> & _).
      cbn [rejected_by_checks]. unfold world_of in Hfr.
      destruct Hfr as (-> & _). reflexivity.
    + intros Hs. injection Hs as Hs <-.
      destruct (store_register_default_error _ _ _ Hs) as (r & _ & -> & _).
      reflexivity.
Qed.

(** A file for CPU 7 on a machine with one CPU: setup fails, and the
    callback of device 5 stays registered. *)
Lemma failed_setup_registration_witness :
  let s := configure 0 0 0 false 7 (Some "blob.bin"%string) None false in
  let w := demo_world false false 1 false in
  generic_loader_realize (H := demo_host false false) 5 s w
  = Ran (with_cpu None (with_set_pc true s), Some (ErrCpuNonexistent 7))
        (registered 5 w)
  ∧ reset_handlers (registered (H := demo_host false false) 5 w)
    = reset_handlers w ++ [5%nat].
Proof.
  intros s w. split; [reflexivity|].
  apply (failed_setup_registration (H := demo_host false false) 5%nat s
           (with_cpu None (with_set_pc true s)) (ErrCpuNonexistent 7) w
           (registered 5 w)).
  reflexivity.
Defined.

(** Setup on a machine past its ready milestone with a register name that
    does not parse: setup fails only after the reset callback has run, so
    the literal has been written to memory and the callback is registered. *)
Lemma failed_setup_after_reset :
  let s := configure 64 42 4 false 0 None (Some "x9"%string) false in
  let w := demo_world false false 1 true in
  ∃ s' w',
    generic_loader_realize (H := demo_host false false) 5 s w
    = Ran (s', Some (ErrUnsupportedRegister "x9")) w' ∧
    reset_handlers w' = [5%nat] ∧
    peek w 0 64 = None ∧ peek w' 0 64 = Some 42.
Proof. intros s w. eexists _, _. vm_compute. repeat split. Qed.

(** ** The literal write *)

(** C2: a data length of 8 passes the checks of setup, and the reset
    callback then stops at its assertion [data_len < sizeof(data)],
    before the write. *)
Theorem data_len_8_accepted_then_aborts `{Host} dev s w :
  data_len s = 8 → file s = None → force_raw s = false → reg s = None →
  cpu_num s = CPU_NONE → cpus w ≠ [] → machine_ready w = false →
  let s' := convert_data (with_cpu (Some 0%nat) (with_set_pc false s)) in
  generic_loader_realize dev s w = Ran (s', None) (registered dev w) ∧
  ∃ w', generic_loader_reset s' (registered dev w) = Stopped AssertionFailed w'
        ∧ spaces w' = spaces w.
Proof.
  intros Hl Hf Hr Hreg Hn Hcs Hm s'.
  assert (Hc : check_options s = (with_set_pc false s, None)).
  { unfold check_options, data_given. cbn [data data_len data_be file force_raw with_set_pc].
    rewrite Hl, Hf, Hr. cbn. now rewrite orb_true_r. }
  destruct (cpus w) as [|c0 cs] eqn:Hcpus; [done|].
  split.
  - rewrite (generic_loader_realize_checked dev s _ w Hc). cbv zeta.
    unfold resolve_cpu. cbn [cpu_num with_set_pc with_cpu cpu]. rewrite Hn.
    cbn [Z.eqb negb andb]. change (CPU_NONE =? CPU_NONE) with true. cbn [negb andb].
    unfold load_image. cbn [file with_cpu with_set_pc]. rewrite Hf.
    unfold ret at 1. rewrite finish_realize_run.
    change (machine_ready (registered dev w)) with (machine_ready w). rewrite Hm.
    unfold first_cpu. change (cpus (registered dev w)) with (cpus w). rewrite Hcpus.
    unfold store_register_default. cbn [reg convert_data with_data with_cpu with_set_pc].
    rewrite Hreg. cbn [cpu_num with_cpu with_set_pc]. rewrite Hn. reflexivity.
  - rewrite (generic_loader_reset_valid s' (registered dev w) 0%nat c0)
      by (try reflexivity; change (cpus (registered dev w)) with (cpus w);
          now rewrite Hcpus).
    cbv zeta. change (data_len s') with (data_len s). rewrite Hl.
    change (8 =? 0) with false. change (8 <? 8) with false. cbv beta iota.
    eexists. split; reflexivity.
Qed.

Lemma data_len_8_accepted_then_aborts_witness :
  let s := configure 64 1234605616436508552 8 false CPU_NONE None None false in
  let w := demo_world false false 1 false in
  generic_loader_realize (H := demo_host false false) 5 s w
  = Ran (convert_data (H := demo_host false false)
           (with_cpu (Some 0%nat) (with_set_pc false s)), None) (registered 5 w)
  ∧ ∃ w', generic_loader_reset (H := demo_host false false)
            (convert_data (H := demo_host false false)
               (with_cpu (Some 0%nat) (with_set_pc false s))) (registered 5 w)
          = Stopped AssertionFailed w'
          ∧ spaces w' = spaces w.
Proof.
  intros s w.
  apply (data_len_8_accepted_then_aborts (H := demo_host false false) 5%nat s w);
    try reflexivity.
  discriminate.
Defined.

(** C4: the bytes of the literal write.  After a setup that accepted a
    data configuration, a run of the reset callback on a machine where
    the resolved CPU exists changes memory, if at all, only at
    [addr .. addr + data_len - 1] of that CPU's address space; for a data
    length below 8 these addresses then hold the first [data_len] bytes
    of the value in the byte order asked for, most significant first
    under [data_be] and least significant first otherwise.  For
    0x1122334455667788 and length 4 these are 11 22 33 44 and
    88 77 66 55. *)
Theorem literal_write_bytes `{Host} dev s s' w0 w1 w h c :
  generic_loader_realize dev s w0 = Ran (s', None) w1 →
  data_given s = true →
  cpu s' = Some h → cpus w !! h = Some c →
  let bytes :=
    take (Z.to_nat (data_len s))
         (if data_be s then be_bytes 8 (data s) else le_bytes 8 (data s)) in
  let w' := world_of (generic_loader_reset s' w) in
  (∀ a x, ¬ (a = as_ c ∧ addr s ≤ x < addr s + data_len s) →
          peek w' a x = peek w a x) ∧
  (data_len s < 8 → ∀ i, 0 ≤ i < data_len s →
          peek w' (as_ c) (addr s + i) = bytes !! Z.to_nat i) ∧
  (data s = 0x1122334455667788 → data_len s = 4 →
          bytes = if data_be s then [0x11; 0x22; 0x33; 0x44]
                  else [0x88; 0x77; 0x66; 0x55]).
Proof.
  intros Hr Hd Hh Hc bytes w'.
  destruct (generic_loader_realize_ok_fields _ _ _ _ _ Hr)
    as (s1 & Hck & Hn & Hdata & _ & _ & Haddr).
  destruct (check_options_ok _ _ Hck)
    as [(_ & Hf & _ & Hn0 & Hn8 & _)|[(Hd' & _)|(Hd' & _)]]; try congruence.
  specialize (Haddr Hf).
  assert (Himg : take (Z.to_nat (data_len s')) (host_image64 (data s')) = bytes).
  { unfold bytes. rewrite Hn, Hdata.
    destruct (data_be s); [now rewrite host_image64_be|now rewrite host_image64_le]. }
  assert (Hlen : length bytes = Z.to_nat (data_len s)).
  { unfold bytes. rewrite length_take.
    assert (length (if data_be s then be_bytes 8 (data s) else le_bytes 8 (data s)) = 8%nat)
      as -> by (destruct (data_be s); unfold be_bytes;
                rewrite ?length_rev, length_le_bytes; reflexivity).
    lia. }
  assert (Hw' : (8 ≤ data_len s ∧ w' = on_cpu h (cpu_effect s') w) ∨
                (data_len s < 8 ∧ w' = data_effect s' (as_ c) (on_cpu h (cpu_effect s') w))).
  { unfold w'. rewrite (generic_loader_reset_valid s' w h c Hh Hc). cbv zeta.
    rewrite Hn. destruct (Z.eqb_spec (data_len s) 0); [contradiction|].
    destruct (Z.ltb_spec (data_len s) 8); [right|left]; done. }
  split; [|split].
  - intros a x Hout. destruct Hw' as [[_ ->]|[_ ->]]; [reflexivity|].
    rewrite peek_data_effect. cbv zeta. rewrite Himg, Hlen, Haddr.
    rewrite bool_decide_false; [reflexivity|]. intros [-> Hx]. apply Hout. split; [done|lia].
  - intros Hlt i Hi. destruct Hw' as [[? _]|[_ ->]]; [lia|].
    rewrite peek_data_effect. cbv zeta. rewrite Himg, Hlen, Haddr.
    rewrite bool_decide_true by (split; [done|lia]).
    f_equal. lia.
  - intros Hv Hl4. unfold bytes. rewrite Hv, Hl4.
    destruct (data_be s); reflexivity.
Qed.

Lemma literal_write_bytes_witness :
  let H := demo_host false false in
  let s := configure 64 0x1122334455667788 4 true CPU_NONE None None false in
  let w := registered 5 (demo_world false false 1 false) in
  let s' := convert_data (with_cpu (Some 0%nat) (with_set_pc false s)) in
  let w' := world_of (generic_loader_reset s' w) in
  let bytes := take 4 (be_bytes 8 0x1122334455667788) in
  (∀ a x, ¬ (a = 0%nat ∧ 64 ≤ x < 64 + 4) → peek w' a x = peek w a x) ∧
  (4 < 8 → ∀ i, 0 ≤ i < 4 → peek w' 0 (64 + i) = bytes !! Z.to_nat i) ∧
  (0x1122334455667788 = 0x1122334455667788 → 4 = 4 →
   bytes = [0x11; 0x22; 0x33; 0x44]).
Proof.
  intros H s w s' w' bytes.
  apply (literal_write_bytes (H := H) 5%nat s s' (demo_world false false 1 false)
           w w 0%nat (demo_cpu false false 0 0)); reflexivity.
Defined.

(** ** Idempotence of the reset callback *)

Section Idempotence.
Context `{Host}.
Variables (s : GenericLoaderState) (c : CPUState).
Hypothesis full_reset : ∀ e, cpu_reset (cpu_reset e) = cpu_reset e.
Hypothesis overwrites : ∀ k, cc c = Some k → pure_overwrites k.

Local Abbreviation step := (default_step s c).

Lemma set_env_set_env e e' : set_env e' (set_env e c) = set_env e' c.
Proof. reflexivity. Qed.

Lemma defaults_effect_steps l e :
  defaults_effect s l (set_env e c) = fold_left (λ e i, step i e) l e.
Proof.
  revert e. induction l as [|i l IH]; intros e; [reflexivity|].
  cbn [defaults_effect fold_left]. rewrite set_env_set_env. apply IH.
Qed.

Lemma step_reset i e : cpu_reset (step i e) = cpu_reset e.
Proof.
  unfold step, default_effect. cbn [cc env set_env].
  destruct (has_register_defaults s !!! i); [|reflexivity].
  destruct (cc c) as [k|] eqn:Hk; [|reflexivity].
  destruct (cc_gdb_write_register k) as [write|] eqn:Hw; [|reflexivity].
  now apply (reset_after_write k (overwrites k eq_refl)).
Qed.

Lemma step_twice i e : step i (step i e) = step i e.
Proof.
  unfold step, default_effect. cbn [cc env set_env].
  destruct (has_register_defaults s !!! i); [|reflexivity].
  destruct (cc c) as [k|] eqn:Hk; [|reflexivity].
  destruct (cc_gdb_write_register k) as [write|] eqn:Hw; [|reflexivity].
  now apply (write_twice k (overwrites k eq_refl)).
Qed.

Lemma step_commute i j e : i ≠ j → step i (step j e) = step j (step i e).
Proof.
  intros Hij. unfold step, default_effect. cbn [cc env set_env].
  destruct (has_register_defaults s !!! i); [|reflexivity].
  destruct (has_register_defaults s !!! j); [|reflexivity].
  destruct (cc c) as [k|] eqn:Hk; [|reflexivity].
  destruct (cc_gdb_write_register k) as [write|] eqn:Hw; [|reflexivity].
  apply (write_commute k (overwrites k eq_refl)); [done|lia..].
Qed.

Lemma steps_reset l e : cpu_reset (fold_left (λ e i, step i e) l e) = cpu_reset e.
Proof.
  revert e. induction l as [|i l IH]; intros e; [reflexivity|].
  cbn [fold_left]. now rewrite IH, step_reset.
Qed.

Lemma step_steps_commute i l e :
  i ∉ l →
  step i (fold_left (λ e i, step i e) l e) = fold_left (λ e i, step i e) l (step i e).
Proof.
  revert e. induction l as [|j l IH]; intros e Hi; [reflexivity|].
  cbn [fold_left]. rewrite IH by (intros ?; apply Hi; now right).
  rewrite step_commute; [reflexivity|]. intros ->. apply Hi. now left.
Qed.

Lemma steps_twice l e :
  NoDup l →
  fold_left (λ e i, step i e) l (fold_left (λ e i, step i e) l e)
  = fold_left (λ e i, step i e) l e.
Proof.
  intros Hl. revert e. induction Hl as [|i l Hi Hl IH]; intros e; [reflexivity|].
  cbn [fold_left]. rewrite (step_steps_commute i l (step i e)) by done.
  now rewrite step_twice, IH.
Qed.

(** The effect of the callback on the CPU, applied twice, is its effect
    applied once. *)
Lemma cpu_effect_twice :
  cpu_effect s (set_env (cpu_effect s c) c) = cpu_effect s c.
Proof.
  unfold cpu_effect. rewrite set_env_set_env.
  rewrite !defaults_effect_steps.
  pose proof (NoDup_seq 0 31) as Hnd. revert Hnd.
  generalize (seq 0 31). intros l Hnd.
  unfold pc_effect. cbn [cc env set_env].
  destruct (set_pc s); [|now apply steps_twice].
  rewrite steps_reset.
  pose proof (λ k Hk, reset_after_set_pc k (overwrites k Hk)) as Hpc.
  destruct (cc c) as [k|]; [|now rewrite full_reset].
  now rewrite (Hpc k eq_refl), full_reset.
Qed.

End Idempotence.

Lemma on_cpu_data_effect `{Host} h f s a w :
  on_cpu h f (data_effect s a w) = data_effect s a (on_cpu h f w).
Proof. reflexivity. Qed.

(** C9: when the CPU reset is a full reset and the methods of the
    target CPU's class are pure overwrites, invoking the reset callback
    twice in succession leaves the machine (memory, registers and all)
    exactly as invoking it once; this includes the runs that stop. *)
Theorem reset_twice_same `{Host} s w :
  (∀ e, cpu_reset (cpu_reset e) = cpu_reset e) →
  (∀ h c k, cpu s = Some h → cpus w !! h = Some c → cc c = Some k →
            pure_overwrites k) →
  (generic_loader_reset s ;; generic_loader_reset s) w = generic_loader_reset s w.
Proof.
  intros Hfull Hover.
  destruct (deref_cpu_cases (cpu s) w) as [(h & c & Hh & Hc)|Hd].
  - assert (Htwice : on_cpu h (cpu_effect s) (on_cpu h (cpu_effect s) w)
                     = on_cpu h (cpu_effect s) w).
    { rewrite on_cpu_on_cpu. apply (on_cpu_ext _ _ _ _ c); [done|].
      apply cpu_effect_twice; [done|]. intros k Hk. now apply (Hover h c k). }
    pose proof (on_cpu_lookup h (cpu_effect s) w c Hc) as Hc1.
    pose proof (generic_loader_reset_valid s w h c Hh Hc) as Hrun.
    pose proof (generic_loader_reset_valid s _ h _ Hh Hc1) as Hrun1.
    cbv zeta in Hrun, Hrun1. cbn [as_ set_env] in Hrun1.
    destruct (data_len s =? 0) eqn:H0; [|destruct (data_len s <? 8) eqn:H8].
    + erewrite bind_run by exact Hrun. rewrite Hrun1, Hrun. now rewrite Htwice.
    + erewrite bind_run by exact Hrun.
      pose proof (generic_loader_reset_valid s
        (data_effect s (as_ c) (on_cpu h (cpu_effect s) w)) h _ Hh Hc1) as Hrun2.
      cbv zeta in Hrun2. cbn [as_ set_env] in Hrun2. rewrite H0, H8 in Hrun2.
      rewrite Hrun2, Hrun. f_equal.
      now rewrite on_cpu_data_effect, Htwice, data_effect_idemp.
    + rewrite Hrun. now apply bind_stop.
  - destruct (generic_loader_reset_invalid s w Hd) as [Hr|[f Hr]].
    + now erewrite bind_run by exact Hr.
    + rewrite Hr. now apply bind_stop.
Qed.

(** The register-file CPU of the examples is made of pure overwrites. *)
Lemma regfile_class_overwrites hb tb :
  pure_overwrites (H := demo_host hb tb) (regfile_class hb tb).
Proof.
  split.
  - reflexivity.
  - reflexivity.
  - intros write e b i [= <-]. cbn. f_equal. apply list_insert_insert_eq.
  - intros write e b b' i j [= <-] Hi Hj Hij. cbn. f_equal.
    apply list_insert_insert_ne. lia.
Qed.

Lemma reset_twice_same_witness :
  let H := demo_host false false in
  let s := with_register_default 2 (cpu_to_le64 42)
             (with_cpu (Some 0%nat)
                (with_set_pc true
                   (configure 64 1234 4 false 0 None None false))) in
  let w := demo_world false false 1 true in
  (generic_loader_reset s ;; generic_loader_reset s) w = generic_loader_reset s w.
Proof.
  intros H s w. apply (reset_twice_same (H := H) s w).
  - reflexivity.
  - intros h c k _ Hc Hk.
    destruct h as [|h]; [|discriminate].
    injection Hc as <-. injection Hk as <-.
    apply regfile_class_overwrites.
Defined.

(** ** The image is loaded at setup, not at reset *)

Lemma generic_loader_reset_nothing `{Host} s w :
  set_pc s = false →
  (∀ i, (i < 31)%nat → has_register_defaults s !!! i = false) →
  data_len s = 0 →
  generic_loader_reset s w = Ran tt w.
Proof.
  intros Hpc Hreg Hlen. unfold generic_loader_reset.
  unfold bind at 1, reset_pc, when. rewrite Hpc. unfold ret at 1.
  unfold bind at 1.
  rewrite for_each_registers_none
    by (intros i Hi; apply Hreg; apply elem_of_seq in Hi; lia).
  unfold reset_data, when. now rewrite Hlen.
Qed.

Lemma attempt_call_size `{Host} f addr ram a fmt :
  call_size (attempt f addr ram a fmt).1.1 = (attempt f addr ram a fmt).1.2.
Proof. now destruct fmt. Qed.

(** Among the attempts the sequencer makes, only the winner succeeded. *)
Lemma first_success_count `{Host} f addr ram a order cs r :
  first_success f addr ram a order = (cs, r) →
  length (filter (λ c, 0 ≤ call_size c) cs)
  = match r with Some _ => 1%nat | None => 0%nat end.
Proof.
  revert cs r. induction order as [|fmt order IH]; intros cs r.
  - intros [= <- <-]. reflexivity.
  - cbn [first_success]. pose proof (attempt_call_size f addr ram a fmt) as Hsz.
    destruct (attempt f addr ram a fmt) as [[c size] entry]. cbn in Hsz.
    destruct (Z.ltb_spec size 0) as [Hneg|Hpos].
    + destruct (first_success f addr ram a order) as [cs' r'].
      intros [= <- <-]. rewrite filter_cons_False by lia. now apply IH.
    + intros [= <- <-]. rewrite filter_cons_True by lia. reflexivity.
Qed.

(** C10: after a setup that succeeds with a file, no CPU number, no
    register name and no register default in place, exactly one loader
    call of the setup succeeded, and the reset callback then changes
    nothing at all, on any machine; and no run of the reset callback, for
    any device state, calls a loader. *)
Theorem image_loaded_once_at_setup `{Host} dev s s' w w' :
  generic_loader_realize dev s w = Ran (s', None) w' →
  is_Some (file s) → cpu_num s = CPU_NONE → reg s = None →
  (∀ i, (i < 31)%nat → has_register_defaults s !!! i = false) →
  (∃ cs, load_log w' = load_log w ++ cs ∧
         length (filter (λ c, 0 ≤ call_size c) cs) = 1%nat) ∧
  (∀ w2, generic_loader_reset s' w2 = Ran tt w2) ∧
  (∀ s2 w2, load_log (world_of (generic_loader_reset s2 w2)) = load_log w2).
Proof.
  intros Hr [f Hf] Hn Hreg Hhas.
  destruct (generic_loader_realize_ok _ _ _ _ _ Hr)
    as (s1 & cs & a & Hc & _ & Hl & Hs & Hw).
  destruct (check_options_ok _ _ Hc)
    as [(_ & Hf' & _)|[(Hd & _ & ->)|(_ & Hf' & _)]]; try congruence.
  rewrite Hn in *. change (CPU_NONE =? CPU_NONE) with true in *. cbn [negb] in *.
  set (w1 := registered dev w) in *.
  set (s2 := resolve_cpu (with_set_pc false s) w1) in *.
  assert (Hs2 : s2 = with_cpu (first_cpu w1) (with_set_pc false s)).
  { unfold s2, resolve_cpu. cbn [cpu_num with_set_pc]. rewrite Hn.
    change (CPU_NONE =? CPU_NONE) with true. reflexivity. }
  assert (Hs' : s' = convert_data (with_addr a s2)).
  { unfold store_register_default in Hs. rewrite Hs2 in Hs. cbn [reg convert_data
      with_data with_addr with_cpu with_set_pc] in Hs. rewrite Hreg in Hs.
    rewrite Hs2. now injection Hs as <-. }
  assert (Hdl : data_len s = 0).
  { unfold data_given in Hd. apply orb_false_iff in Hd as [Hd _].
    apply orb_false_iff in Hd as [_ Hd]. apply negb_false_iff in Hd.
    now apply Z.eqb_eq. }
  split; [|split].
  - exists cs. split.
    + destruct (machine_ready w).
      * pose proof (generic_loader_reset_frame (convert_data (with_addr a s2))
                      (logged cs w1)) as Hfr. cbv zeta in Hfr.
        rewrite Hw in Hfr. unfold world_of in Hfr.
        destruct Hfr as (_ & -> & _). reflexivity.
      * rewrite Hw. reflexivity.
    + assert (Hf2 : file s2 = Some f) by (rewrite Hs2; exact Hf).
      rewrite (load_image_sequencer s2 f w1 Hf2) in Hl
        by (intros h Hh; now apply (resolve_cpu_valid _ _ _ Hh)).
      unfold spec_sequencer in Hl.
      destruct (first_success _ _ _ _ _) as [cs' r] eqn:Hfs.
      pose proof (first_success_count _ _ _ _ _ _ _ Hfs) as Hcount.
      assert (Hcs : cs' = cs ∧ is_Some r).
      { destruct r as [[e|]|]; [| |discriminate];
          apply (f_equal (λ o, load_log (world_of o))) in Hl; cbn in Hl;
          apply app_inv_head in Hl; split; eauto. }
      destruct Hcs as [<- [? ->]]. exact Hcount.
  - intros w2. apply generic_loader_reset_nothing.
    + rewrite Hs', Hs2. reflexivity.
    + intros i Hi. rewrite Hs', Hs2. now apply Hhas.
    + rewrite Hs', Hs2. exact Hdl.
  - intros s0 w2. now destruct (generic_loader_reset_frame s0 w2) as (_ & ? & _).
Qed.

Lemma image_loaded_once_at_setup_witness :
  let H := demo_host false false in
  let s := configure 16 0 0 false CPU_NONE (Some "boot.hex"%string) None false in
  let w := demo_world false false 1 true in
  let s' := with_addr 256 (with_cpu (Some 0%nat) s) in
  let w' := logged [CallElf "boot.hex" false (Some 0%nat) (-1);
                    CallUimage "boot.hex" (Some 0%nat) (-1);
                    CallHex "boot.hex" (Some 0%nat) 64] (registered 5 w) in
  (∃ cs, load_log w' = load_log w ++ cs ∧
         length (filter (λ c, 0 ≤ call_size c) cs) = 1%nat) ∧
  (∀ w2, generic_loader_reset s' w2 = Ran tt w2) ∧
  (∀ s2 w2, load_log (world_of (generic_loader_reset s2 w2)) = load_log w2).
Proof.
  intros H s w s' w'.
  apply (image_loaded_once_at_setup (H := H) 5%nat s s' w w').
  - reflexivity.
  - now exists "boot.hex"%string.
  - reflexivity.
  - reflexivity.
  - intros i Hi. now apply lookup_total_replicate_2.
Defined.

(** ** The resolved CPU *)

(** A raw image loaded on a machine without CPUs and without a CPU
    number: setup succeeds and the CPU handle is NULL. *)
Lemma setup_succeeds_with_null_cpu :
  let H := demo_host false false in
  let s := configure 0 0 0 false CPU_NONE (Some "blob.bin"%string) None true in
  let w := demo_world false false 0 false in
  generic_loader_realize 5 s w
  = Ran (with_cpu None s, None)
        (logged [CallRaw "blob.bin" 0 134217728 None 16] (registered 5 w))
  ∧ cpu (with_cpu None s) = None.
Proof. intros H s w. split; reflexivity. Qed.

(** C7, amended: after a setup that succeeds the CPU handle names a CPU
    of the machine whenever a CPU number was given or the machine has a
    CPU, and it is the first CPU when no number was given; [set_pc] is
    set only when a number was given, so the program counter is never
    set through a NULL handle.  Without a number and without CPUs the
    handle is NULL. *)
Theorem resolved_cpu_non_null `{Host} dev s s' w w' :
  generic_loader_realize dev s w = Ran (s', None) w' →
  (cpu_num s ≠ CPU_NONE ∨ cpus w ≠ [] →
   ∃ h, cpu s' = Some h ∧ is_Some (cpus w' !! h) ∧
        (cpu_num s = CPU_NONE → h = 0%nat)) ∧
  (set_pc s' = true → cpu_num s ≠ CPU_NONE) ∧
  (cpu_num s = CPU_NONE → cpus w = [] → cpu s' = None).
Proof.
  intros Hr.
  destruct (generic_loader_realize_ok _ _ _ _ _ Hr)
    as (s1 & cs & a & Hc & Hres & _ & _ & Hw).
  destruct (generic_loader_realize_ok_fields _ _ _ _ _ Hr)
    as (s1' & Hc' & _ & _ & Hpc & Hcpu & _).
  rewrite Hc in Hc'. injection Hc' as <-.
  assert (Hlen : length (cpus w') = length (cpus w)).
  { destruct (machine_ready w).
    - pose proof (generic_loader_reset_frame
        (convert_data (with_addr a (resolve_cpu s1 (registered dev w))))
        (logged cs (registered dev w))) as Hfr. cbv zeta in Hfr.
      rewrite Hw in Hfr. unfold world_of in Hfr.
      now destruct Hfr as (_ & _ & _ & _ & ->).
    - now rewrite Hw. }
  assert (Hnum : cpu_num s1 = cpu_num s)
    by (destruct (check_options_fields _ _ _ Hc) as [b ->]; reflexivity).
  assert (Hvalid : ∀ h, cpu s' = Some h → is_Some (cpus w' !! h)).
  { intros h Hh. rewrite Hcpu in Hh. apply resolve_cpu_valid in Hh.
    apply lookup_lt_is_Some. rewrite Hlen.
    now apply lookup_lt_is_Some in Hh. }
  assert (Hcpu' : cpu s' = if negb (cpu_num s =? CPU_NONE)
                           then qemu_get_cpu (cpu_num s) (registered dev w)
                           else first_cpu (registered dev w)).
  { rewrite Hcpu. unfold resolve_cpu. rewrite Hnum. now destruct (negb _). }
  assert (Hfirst : first_cpu (registered dev w)
                   = match cpus w with [] => None | _ :: _ => Some 0%nat end)
    by reflexivity.
  split; [|split].
  - intros Hor.
    destruct (Z.eqb_spec (cpu_num s) CPU_NONE) as [He|He]; cbn [negb] in Hcpu'.
    + destruct Hor as [?|Hne]; [contradiction|].
      rewrite Hfirst in Hcpu'. destruct (cpus w) as [|c0 cs0]; [contradiction|].
      exists 0%nat. split; [done|]. split; [now apply Hvalid|done].
    + destruct (qemu_get_cpu (cpu_num s) (registered dev w)) as [h|] eqn:Hq.
      * exists h. split; [done|]. split; [now apply Hvalid|contradiction].
      * exfalso. rewrite Hnum in Hres. destruct Hres as [?|[h Hh]]; [contradiction|].
        rewrite <- Hcpu, Hcpu' in Hh. discriminate.
  - rewrite Hpc. intros Hs1.
    destruct (check_options_ok _ _ Hc)
      as [(_&_&_&_&_& ->)|[(_&_& ->)|(_&_&_&_&?&_)]]; [discriminate| |done].
    cbn in Hs1. apply negb_true_iff in Hs1. now apply Z.eqb_neq in Hs1.
  - intros He Hnil. rewrite Hcpu', He.
    change (CPU_NONE =? CPU_NONE) with true. cbn [negb].
    rewrite Hfirst. now rewrite Hnil.
Qed.

Lemma resolved_cpu_non_null_witness :
  let H := demo_host false false in
  let s := configure 64 7 4 false 1 None None false in
  let w := demo_world false false 2 false in
  let s' := with_cpu (Some 1%nat) s in
  (cpu_num s ≠ CPU_NONE ∨ cpus w ≠ [] →
   ∃ h, cpu s' = Some h ∧ is_Some (cpus (registered 5 w) !! h) ∧
        (cpu_num s = CPU_NONE → h = 0%nat)) ∧
  (set_pc s' = true → cpu_num s ≠ CPU_NONE) ∧
  (cpu_num s = CPU_NONE → cpus w = [] → cpu s' = None).
Proof.
  intros H s w s'.
  apply (resolved_cpu_non_null (H := H) 5%nat s s' w (registered 5 w)).
  reflexivity.
Defined.

(** ** Register names *)

Lemma is_digit_not_space c : is_digit c = true → isspace c = false.
Proof.
  unfold is_digit, digit_of, isspace. cbv zeta.
  destruct (Z.leb_spec 48 (Z.of_N (N_of_ascii c))); cbn [andb]; [|discriminate].
  intros _. destruct (Z.eqb_spec (Z.of_N (N_of_ascii c)) 32); [lia|].
  destruct (Z.leb_spec 9 (Z.of_N (N_of_ascii c))); [|reflexivity].
  destruct (Z.leb_spec (Z.of_N (N_of_ascii c)) 13); [lia|reflexivity].
Qed.

Lemma is_digit_not_sign c :
  is_digit c = true → Ascii.eqb c "-" = false ∧ Ascii.eqb c "+" = false.
Proof.
  intros Hd. split; apply Ascii.eqb_neq; intros ->; discriminate.
Qed.

Lemma digit_of_value c d : digit_of c = Some d → d = Z.of_N (N_of_ascii c) - 48.
Proof. unfold digit_of. cbv zeta. destruct (_ && _); now intros [= <-]. Qed.

Local Arguments isspace : simpl never.
Local Arguments is_digit : simpl never.
Local Arguments digit_of : simpl never.

Lemma append_nil t : ""%string +:+ t = t.
Proof. reflexivity. Qed.

Lemma append_cons c s t : String c s +:+ t = String c (s +:+ t).
Proof. reflexivity. Qed.

Lemma skip_spaces_stop t : starts_with isspace t = false → skip_spaces t = t.
Proof. destruct t as [|c t]; [reflexivity|]. cbn. now intros ->. Qed.

Lemma skip_spaces_app ws t :
  all_chars isspace ws = true → starts_with isspace t = false →
  skip_spaces (ws +:+ t) = t.
Proof.
  intros Hws Ht. induction ws as [|c ws IH].
  - rewrite append_nil. now apply skip_spaces_stop.
  - rewrite append_cons. cbn [all_chars skip_spaces] in *.
    apply andb_true_iff in Hws as [-> Hws]. now apply IH.
Qed.

Lemma skip_spaces_split t :
  ∃ ws, t = ws +:+ skip_spaces t ∧ all_chars isspace ws = true ∧
        starts_with isspace (skip_spaces t) = false.
Proof.
  induction t as [|c t (ws & Ht & Hws & Hs)].
  - now exists ""%string.
  - cbn [skip_spaces]. destruct (isspace c) eqn:Hc.
    + exists (String c ws). split; [|split]; [|cbn [all_chars]; now rewrite Hc|done].
      rewrite append_cons. now rewrite <- Ht.
    + exists ""%string. split; [done|]. split; [done|]. cbn [starts_with]. exact Hc.
Qed.

Lemma scan_digits_app acc ds rest :
  all_chars is_digit ds = true → starts_with is_digit rest = false →
  scan_digits acc (ds +:+ rest) = decimal_value acc ds.
Proof.
  intros Hds Hrest. revert acc. induction ds as [|c ds IH]; intros acc.
  - rewrite append_nil. cbn [decimal_value].
    destruct rest as [|c rest]; [reflexivity|].
    cbn [starts_with scan_digits] in *. unfold is_digit in Hrest.
    now destruct (digit_of c).
  - rewrite append_cons. cbn [all_chars scan_digits decimal_value] in *.
    apply andb_true_iff in Hds as [Hc Hds]. unfold is_digit in Hc.
    destruct (digit_of c) as [d|] eqn:Hd; [|discriminate].
    rewrite (digit_of_value _ _ Hd). now apply IH.
Qed.

Lemma scan_digits_split t :
  ∃ ds rest, t = ds +:+ rest ∧ all_chars is_digit ds = true ∧
             starts_with is_digit rest = false.
Proof.
  induction t as [|c t (ds & rest & Ht & Hds & Hrest)].
  - now exists ""%string, ""%string.
  - destruct (is_digit c) eqn:Hc.
    + exists (String c ds), rest.
      split; [|split]; [|cbn [all_chars]; now rewrite Hc|done].
      rewrite append_cons. now rewrite <- Ht.
    + exists ""%string, (String c t). split; [done|]. split; [done|].
      cbn [starts_with]. exact Hc.
Qed.

(** The code's [sscanf] accepts exactly the names of [names_register]. *)
Lemma sscanf_r_d_names r n : sscanf_r_d r = Some n ↔ names_register r n.
Proof.
  split.
  - destruct r as [|c0 t]; [discriminate|]. cbn [sscanf_r_d].
    destruct (Ascii.eqb_spec c0 "r") as [->|]; [|discriminate].
    unfold scan_int.
    destruct (skip_spaces_split t) as (ws & Ht & Hws & Hstop).
    destruct (scan_sign (skip_spaces t)) as [neg t2] eqn:Hsign.
    destruct t2 as [|c t2]; [discriminate|].
    destruct (digit_of c) as [d|] eqn:Hd; [|discriminate].
    destruct (scan_digits_split (String c t2)) as (ds & rest & Hds & Hall & Hrest).
    assert (Hne : ds ≠ ""%string).
    { intros ->. rewrite append_nil in Hds. subst rest.
      cbn [starts_with] in Hrest. unfold is_digit in Hrest.
      now rewrite Hd in Hrest. }
    assert (Hsg : ∃ sign, skip_spaces t = sign +:+ String c t2 ∧
                  (sign = ""%string ∨ sign = "+"%string ∨ sign = "-"%string) ∧
                  neg = String.eqb sign "-").
    { unfold scan_sign in Hsign. destruct (skip_spaces t) as [|c1 t1]; [discriminate|].
      destruct (Ascii.eqb_spec c1 "-") as [->|].
      - injection Hsign as <- <-. exists "-"%string. auto.
      - destruct (Ascii.eqb_spec c1 "+") as [->|].
        + injection Hsign as <- <-. exists "+"%string. auto.
        + injection Hsign as <- <- <-. exists ""%string. auto. }
    destruct Hsg as (sign & Hsk & Hsign' & ->).
    intros [= <-].
    apply (NamesRegister _ _ ws sign ds rest); try done.
    + now rewrite <- Hds, <- Hsk, <- Ht.
    + change (match digit_of c with
              | Some d0 => scan_digits (10 * 0 + d0) t2
              | None => 0
              end) with (scan_digits 0 (String c t2)).
      rewrite Hds, scan_digits_app by done. reflexivity.
  - intros [ws sign ds rest -> Hws Hsign Hne Hds Hrest ->].
    cbn [sscanf_r_d]. change (Ascii.eqb "r" "r") with true. cbv iota.
    unfold scan_int.
    destruct ds as [|c ds]; [done|]. cbn [all_chars] in Hds.
    apply andb_true_iff in Hds as [Hc Hds].
    destruct (is_digit_not_sign c Hc) as [Hm Hp].
    assert (Hskip : skip_spaces (ws +:+ sign +:+ String c ds +:+ rest)
                    = sign +:+ String c ds +:+ rest).
    { apply skip_spaces_app; [done|].
      destruct Hsign as [->|[->| ->]]; [|reflexivity..].
      rewrite append_nil, append_cons. cbn [starts_with].
      now apply is_digit_not_space. }
    rewrite Hskip.
    assert (Hsg : scan_sign (sign +:+ String c ds +:+ rest)
                  = (String.eqb sign "-", String c ds +:+ rest)).
    { destruct Hsign as [->|[->| ->]]; [|reflexivity..].
      rewrite append_nil, append_cons. unfold scan_sign. now rewrite Hm, Hp. }
    rewrite Hsg. rewrite append_cons. unfold is_digit in Hc.
    destruct (digit_of c) eqn:Hd; [|discriminate].
    rewrite <- append_cons.
    rewrite scan_digits_app; [reflexivity| |done].
    cbn [all_chars]. rewrite Hds. unfold is_digit. now rewrite Hd.
Qed.

(** A setup that gets as far as the register name has, up to there, kept
    the name and the two register arrays, and converted the data. *)
Lemma generic_loader_realize_register `{Host} dev s s' e w w' :
  generic_loader_realize dev s w = Ran (s', e) w' →
  reaches_register e = true →
  ∃ s3, store_register_default s3 = (s', e) ∧ reg s3 = reg s ∧
        data s3 = (if data_be s then cpu_to_be64 (data s) else cpu_to_le64 (data s)) ∧
        register_defaults s3 = register_defaults s ∧
        has_register_defaults s3 = has_register_defaults s.
Proof.
  destruct (check_options s) as [s1 [e1|]] eqn:Hc.
  - unfold generic_loader_realize. rewrite Hc. intros [= <- <- <-].
    apply check_options_error in Hc. now destruct e1.
  - rewrite (generic_loader_realize_checked dev s s1 w Hc). cbv zeta.
    destruct (negb _ && negb _); [now intros [= <- <- <-]|].
    destruct (load_image_cases (resolve_cpu s1 (registered dev w)) (registered dev w))
      as [(cs & a & e2 & -> & He2)| ->]; [|discriminate].
    destruct He2 as [->|(f & _ & ->)]; [|now intros [= <- <- <-]].
    rewrite finish_realize_run.
    destruct (check_options_fields _ _ _ Hc) as [b ->].
    destruct (resolve_cpu_fields (with_set_pc b s) (registered dev w)) as [p ->].
    intros Hrun _.
    exists (convert_data (with_addr a (with_cpu p (with_set_pc b s)))).
    split; [|repeat split].
    destruct (machine_ready _).
    + destruct (generic_loader_reset _ _) as [[] w2|f w2]; [|discriminate].
      injection Hrun as Hs _. destruct (store_register_default _). now inversion Hs.
    + injection Hrun as Hs _. destruct (store_register_default _). now inversion Hs.
Qed.

(** A name with characters after the digits is accepted: setup succeeds
    and seeds register 2. *)
Lemma register_name_trailing_characters_accepted :
  let H := demo_host false false in
  let s := configure 64 42 4 false 0 None (Some "r2x"%string) false in
  let w := demo_world false false 1 false in
  generic_loader_realize 5 s w
  = Ran (with_register_default 2 42 (with_cpu (Some 0%nat) s), None)
        (registered 5 w).
Proof. reflexivity. Qed.

(** C8, amended: for a setup that gets as far as the register name,
    whether the name is accepted is decided by [names_register].  A name
    that stands for a number from 0 to 30 makes setup succeed, and the
    converted literal value and the flag are stored in that slot of the
    two arrays and in no other.  A name that stands for no number, or
    only for a number outside 0..30 that fits an [int], makes setup fail
    with [ErrUnsupportedRegister], the arrays unchanged. *)
Theorem register_name_parse `{Host} dev s r s' e w w' :
  reg s = Some r →
  generic_loader_realize dev s w = Ran (s', e) w' →
  reaches_register e = true →
  let v := if data_be s then cpu_to_be64 (data s) else cpu_to_le64 (data s) in
  (∀ n, names_register r n → 0 ≤ n < 31 →
     e = None ∧
     has_register_defaults s' = <[Z.to_nat n := true]> (has_register_defaults s) ∧
     register_defaults s' = <[Z.to_nat n := v]> (register_defaults s) ∧
     (length (has_register_defaults s) = 31%nat →
      has_register_defaults s' !! Z.to_nat n = Some true) ∧
     (length (register_defaults s) = 31%nat →
      register_defaults s' !! Z.to_nat n = Some v) ∧
     ∀ j, j ≠ Z.to_nat n →
          has_register_defaults s' !! j = has_register_defaults s !! j ∧
          register_defaults s' !! j = register_defaults s !! j) ∧
  ((∀ n, names_register r n → INT_MIN ≤ n ≤ INT_MAX ∧ ¬ 0 ≤ n < 31) →
     e = Some (ErrUnsupportedRegister r) ∧
     has_register_defaults s' = has_register_defaults s ∧
     register_defaults s' = register_defaults s).
Proof.
  intros Hreg Hrun He v.
  destruct (generic_loader_realize_register _ _ _ _ _ _ Hrun He)
    as (s3 & Hs & Hr3 & Hd3 & Hrd & Hhd).
  unfold store_register_default in Hs. rewrite Hr3, Hreg in Hs.
  split.
  - intros n Hn Hrange. apply sscanf_r_d_names in Hn. rewrite Hn in Hs.
    destruct (Z.leb_spec 0 n); [|lia]. destruct (Z.ltb_spec n 31); [|lia].
    cbn [andb] in Hs. injection Hs as <- <-. cbn [has_register_defaults
      register_defaults with_register_default]. rewrite Hrd, Hhd, Hd3.
    repeat split; try reflexivity.
    + intros Hlen. apply list_lookup_insert_eq. lia.
    + intros Hlen. apply list_lookup_insert_eq. lia.
    + now apply list_lookup_insert_ne.
    + now apply list_lookup_insert_ne.
  - intros Hnone. destruct (sscanf_r_d r) as [n|] eqn:Hn.
    + apply sscanf_r_d_names in Hn. destruct (Hnone n Hn) as [_ Hout].
      destruct (Z.leb_spec 0 n); destruct (Z.ltb_spec n 31); try lia;
        cbn [andb] in Hs; injection Hs as <- <-; auto.
    + injection Hs as <- <-; auto.
Qed.

Lemma register_name_parse_witness :
  let H := demo_host false false in
  let s := configure 64 42 4 false 0 None (Some "r31"%string) false in
  let w := demo_world false false 1 false in
  let s' := with_cpu (Some 0%nat) s in
  let e := Some (ErrUnsupportedRegister "r31") in
  (∀ n, names_register "r31" n → 0 ≤ n < 31 →
     e = None ∧
     has_register_defaults s' = <[Z.to_nat n := true]> (has_register_defaults s) ∧
     register_defaults s' = <[Z.to_nat n := 42]> (register_defaults s) ∧
     (length (has_register_defaults s) = 31%nat →
      has_register_defaults s' !! Z.to_nat n = Some true) ∧
     (length (register_defaults s) = 31%nat →
      register_defaults s' !! Z.to_nat n = Some 42) ∧
     ∀ j, j ≠ Z.to_nat n →
          has_register_defaults s' !! j = has_register_defaults s !! j ∧
          register_defaults s' !! j = register_defaults s !! j) ∧
  ((∀ n, names_register "r31" n → INT_MIN ≤ n ≤ INT_MAX ∧ ¬ 0 ≤ n < 31) →
     e = Some (ErrUnsupportedRegister "r31") ∧
     has_register_defaults s' = has_register_defaults s ∧
     register_defaults s' = register_defaults s).
Proof.
  intros H s w s' e.
  apply (register_name_parse (H := H) 5%nat s "r31"%string s' e w (registered 5 w));
    reflexivity.
Defined.

Example sscanf_r_d_examples :
  sscanf_r_d "r0" = Some 0 ∧ sscanf_r_d "r30" = Some 30 ∧
  sscanf_r_d "r31" = Some 31 ∧ sscanf_r_d "r 5" = Some 5 ∧
  sscanf_r_d "r+7" = Some 7 ∧ sscanf_r_d "r-1" = Some (-1) ∧
  sscanf_r_d "r2x" = Some 2 ∧ sscanf_r_d "r" = None ∧
  sscanf_r_d "x2" = None ∧ sscanf_r_d " r2" = None ∧ sscanf_r_d "" = None.
Proof. repeat split. Qed.

(** ** Late attachment *)

Lemma defaults_effect_none `{Host} s l c :
  (∀ i, i ∈ l → has_register_defaults s !!! i = false) →
  defaults_effect s l c = env c.
Proof.
  revert c. induction l as [|i l IH]; intros c Hl; [reflexivity|].
  cbn [defaults_effect]. unfold default_effect at 1. rewrite (Hl i) by left.
  rewrite set_env_same. apply IH. intros j Hj. apply Hl. now right.
Qed.

(** With one slot populated the loop is the write of that slot. *)
Lemma defaults_effect_only `{Host} s l j c :
  NoDup l → j ∈ l →
  (∀ i, i ∈ l → i ≠ j → has_register_defaults s !!! i = false) →
  defaults_effect s l c = default_effect s j c.
Proof.
  intros Hnd. revert c. induction Hnd as [|i l Hi Hnd IH]; intros c Hj Hl.
  - now apply elem_of_nil in Hj.
  - cbn [defaults_effect]. destruct (decide (i = j)) as [->|Hne].
    + rewrite defaults_effect_none; [reflexivity|].
      intros i Hil. apply Hl; [now right|]. intros ->. contradiction.
    + unfold default_effect at 1. rewrite (Hl i) by (done || left).
      rewrite set_env_same. apply IH.
      * apply elem_of_cons in Hj as [->|]; [contradiction|done].
      * intros i' Hi' Hne'. apply Hl; [now right|done].
Qed.

(** The scenario with no data length at all, on a machine past its ready
    milestone: setup is rejected by the option checks (line 111), and
    register 2 of CPU 0 keeps its value. *)
Lemma late_attach_r2_without_length_rejected :
  let H := demo_host false false in
  let s := configure 0 42 0 false 0 None (Some "r2"%string) false in
  let w := demo_world false false 1 true in
  generic_loader_realize 5 s w = Ran (s, Some ErrDataLenMissing) w
  ∧ demo_reg false false w 0 2 = Some 7.
Proof. split; reflexivity. Qed.

(** With a data length of 4, in numbers: when setup returns the literal
    42 is in memory at 0x40 but register 2 of CPU 0 still holds 7; the
    next reset makes it 42. *)
Lemma late_attach_register_default_deferred :
  let H := demo_host false false in
  let s := configure 64 42 4 false 0 None (Some "r2"%string) false in
  let w := demo_world false false 1 true in
  ∃ s' w',
    generic_loader_realize 5 s w = Ran (s', None) w' ∧
    peek w' 0 64 = Some 42 ∧
    demo_reg false false w' 0 2 = Some 7 ∧
    demo_reg false false (world_of (generic_loader_reset s' w')) 0 2 = Some 42.
Proof. eexists _, _. vm_compute. repeat split. Qed.

(** C3: the late-attach scenario, with the data length the option
    checks ask for (1 to 7 bytes), on a machine past its ready milestone
    whose CPU 0 can write registers.  Setup succeeds and runs the reset
    callback once, at line 207, before the register default is stored at
    lines 211 to 216.  That run writes the literal to memory and leaves
    every CPU as it was: register 2 is not written when setup returns.
    Register 2's default is recorded only afterwards, as the converted
    42, and it is the next run of the reset callback that hands the bytes
    of 42, least significant first, to the register write of register 2
    of CPU 0. *)
Theorem late_attach_skips_register_default `{Host} dev a n w c0 cs k write :
  1 ≤ n < 8 →
  cpus w = c0 :: cs → cpu_index c0 = 0 →
  cc c0 = Some k → cc_gdb_write_register k = Some write →
  machine_ready w = true →
  let s := configure a 42 n false 0 None (Some "r2"%string) false in
  let s3 := convert_data (with_cpu (Some 0%nat) s) in
  let s' := with_register_default 2 (data s3) s3 in
  let w' := data_effect s3 (as_ c0) (registered dev w) in
  generic_loader_realize dev s w = Ran (s', None) w' ∧
  cpus w' = cpus w ∧
  has_register_defaults s' !! 2%nat = Some true ∧
  register_defaults s' !! 2%nat = Some (data s3) ∧
  host_image64 (data s3) = le_bytes 8 42 ∧
  generic_loader_reset s' w' =
    Ran tt (data_effect s' (as_ c0)
              (on_cpu 0 (λ c, write (env c) (le_bytes 8 42) 2) w')).
Proof.
  intros Hn Hcpus Hidx Hcc Hwr Hready s s3 s' w'.
  assert (Hn0 : (n =? 0) = false) by (apply Z.eqb_neq; lia).
  assert (Hn8 : (n <? 8) = true) by (apply Z.ltb_lt; lia).
  assert (Himg : host_image64 (data s3) = le_bytes 8 42)
    by apply host_image64_le.
  assert (Hc0 : cpus (registered dev w) !! 0%nat = Some c0).
  { change (cpus (registered dev w)) with (cpus w). now rewrite Hcpus. }
  split; [|split; [reflexivity|split; [reflexivity|split; [reflexivity|
    split; [exact Himg|]]]]].
  - assert (Hc : check_options s = (s, None)).
    { unfold check_options, data_given. cbn. rewrite Hn0. cbn.
      destruct (Z.ltb_spec 8 n); [lia|reflexivity]. }
    rewrite (generic_loader_realize_checked dev s s w Hc). cbv zeta.
    assert (Hres : resolve_cpu s (registered dev w) = with_cpu (Some 0%nat) s).
    { unfold resolve_cpu, qemu_get_cpu. cbn [cpu_num configure s].
      change (cpus (registered dev w)) with (cpus w). rewrite Hcpus.
      cbn. now rewrite Hidx. }
    rewrite Hres. cbn [cpu_num cpu with_cpu s configure].
    change (negb (0 =? CPU_NONE) && negb (bool_decide (is_Some (Some 0%nat))))
      with false. cbv iota.
    change (load_image (with_cpu (Some 0%nat) s) (registered dev w))
      with (Ran (H := H) (with_cpu (Some 0%nat) s, @None Error) (registered dev w)).
    cbv iota. rewrite finish_realize_run.
    change (machine_ready (registered dev w)) with (machine_ready w). rewrite Hready.
    fold s3.
    rewrite (generic_loader_reset_valid s3 (registered dev w) 0%nat c0 eq_refl Hc0).
    cbv zeta. change (data_len s3) with n. rewrite Hn0, Hn8.
    assert (Hsame : on_cpu 0 (cpu_effect s3) (registered dev w) = registered dev w).
    { rewrite <- (on_cpu_env 0 (registered dev w)) at 2.
      apply (on_cpu_ext _ _ _ _ c0); [done|].
      unfold cpu_effect, pc_effect. change (set_pc s3) with false. cbv iota.
      rewrite set_env_same. apply defaults_effect_none.
      intros i Hi. apply elem_of_seq in Hi.
      change (has_register_defaults s3) with (replicate 31 false).
      apply lookup_total_replicate_2. lia. }
    rewrite Hsame. reflexivity.
  - assert (Hc0' : cpus w' !! 0%nat = Some c0) by exact Hc0.
    rewrite (generic_loader_reset_valid s' w' 0%nat c0 eq_refl Hc0'). cbv zeta.
    change (data_len s') with n. rewrite Hn0, Hn8. do 2 f_equal.
    apply (on_cpu_ext _ _ _ _ c0); [done|].
    unfold cpu_effect, pc_effect. change (set_pc s') with false. cbv iota.
    rewrite set_env_same.
    rewrite (defaults_effect_only s' (seq 0 31) 2 c0).
    + unfold default_effect.
      change (has_register_defaults s' !!! 2%nat) with true. cbv iota.
      rewrite Hcc, Hwr.
      change (register_defaults s' !!! 2%nat) with (data s3). now rewrite Himg.
    + apply NoDup_seq.
    + apply elem_of_seq. lia.
    + intros i Hi Hne. apply elem_of_seq in Hi.
      change (has_register_defaults s') with (<[2%nat := true]> (replicate 31 false)).
      rewrite list_lookup_total_insert_ne by done.
      apply lookup_total_replicate_2. lia.
Qed.

Lemma late_attach_skips_register_default_witness :
  let H := demo_host false false in
  let w := demo_world false false 1 true in
  let s := configure 64 42 4 false 0 None (Some "r2"%string) false in
  let s3 := convert_data (with_cpu (Some 0%nat) s) in
  let s' := with_register_default 2 (data s3) s3 in
  let w' := data_effect s3 0 (registered 5 w) in
  generic_loader_realize 5 s w = Ran (s', None) w' ∧
  cpus w' = cpus w ∧
  has_register_defaults s' !! 2%nat = Some true ∧
  register_defaults s' !! 2%nat = Some (data s3) ∧
  host_image64 (data s3) = le_bytes 8 42 ∧
  generic_loader_reset s' w' =
    Ran tt (data_effect s' 0
              (on_cpu 0 (λ c, {| pc := pc (env c);
                                 xregs := <[2%nat := ldq_p false (le_bytes 8 42)]>
                                            (xregs (env c)) |}) w')).
Proof.
  intros H w s s3 s' w'.
  apply (late_attach_skips_register_default (H := H) 5%nat 64 4 w
           (demo_cpu false false 0 0) [] (regfile_class false false)
           (λ (e : regfile) buf n,
              {| pc := pc e;
                 xregs := <[Z.to_nat n := ldq_p false buf]> (xregs e) |}));
    try reflexivity.
  lia.
Defined.

(** ** Worked scenarios on the example host *)

Example configure_defaults :
  configure 0 0 0 false CPU_NONE None None false = generic_loader_props.
Proof. reflexivity. Qed.

(** The sequencer on the example loaders: the ELF loader wins at once;
    a file nobody accepts goes through all four; force-raw tries only the
    raw loader, at the configured address. *)
Example spec_sequencer_examples :
  let H := demo_host false false in
  spec_sequencer "kernel.elf" false 16 1024 None
  = ([CallElf "kernel.elf" false None 4096], inl 1073741824) ∧
  spec_sequencer "missing.bin" false 16 1024 None
  = ([CallElf "missing.bin" false None (-1); CallUimage "missing.bin" None (-1);
      CallHex "missing.bin" None (-1); CallRaw "missing.bin" 16 1024 None (-1)],
     inr (ErrCannotLoad "missing.bin")) ∧
  spec_sequencer "kernel.elf" true 16 1024 None
  = ([CallRaw "kernel.elf" 16 1024 None 16], inl 16).
Proof. repeat split. Qed.

(** An ELF image for CPU 1: the entry point becomes the address, [set_pc]
    is set, and a reset leaves CPU 1 at the entry point with its registers
    cleared by the CPU reset, CPU 0 untouched. *)
Example kernel_elf_sets_pc :
  let H := demo_host false false in
  let s := configure 0 0 0 false 1 (Some "kernel.elf"%string) None false in
  let w := demo_world false false 2 false in
  ∃ s' w',
    generic_loader_realize 5 s w = Ran (s', None) w' ∧
    addr s' = 1073741824 ∧ set_pc s' = true ∧ cpu s' = Some 1%nat ∧
    let w2 := world_of (generic_loader_reset s' w') in
    demo_pc false false w2 1 = Some 1073741824 ∧
    demo_reg false false w2 1 2 = Some 0 ∧
    demo_pc false false w2 0 = Some 4.
Proof. eexists _, _. vm_compute. repeat split. Qed.

(** Setting the program counter needs a CPU number. *)
Example set_pc_needs_cpu :
  let H := demo_host false false in
  let s := configure 4096 0 0 false CPU_NONE None None false in
  let w := demo_world false false 1 false in
  generic_loader_realize 5 s w = Ran (s, Some ErrCpuNumMissing) w.
Proof. reflexivity. Qed.

(** Teardown removes the registration a setup made. *)
Lemma remove_first_registered dev l :
  dev ∉ l → remove_first dev (l ++ [dev]) = l.
Proof.
  induction l as [|d l IH]; intros Hd; cbn.
  - now rewrite Nat.eqb_refl.
  - destruct (Nat.eqb_spec d dev) as [->|_].
    + exfalso. apply Hd. now left.
    + f_equal. apply IH. intros ?. apply Hd. now right.
Qed.

Lemma generic_loader_unrealize_registered `{Host} dev w :
  dev ∉ reset_handlers w →
  generic_loader_unrealize dev (registered dev w) = Ran tt w.
Proof.
  intros Hd. unfold generic_loader_unrealize, qemu_unregister_reset_loader,
    modify, registered, with_reset_handlers. cbn.
  rewrite remove_first_registered by done. now destruct w.
Qed.

(** The last name accepted: [r30] seeds slot 30 and no other. *)
Example register_name_r30_accepted :
  let H := demo_host false false in
  let s := configure 64 42 4 false 0 None (Some "r30"%string) false in
  let w := demo_world false false 1 false in
  ∃ s' w',
    generic_loader_realize 5 s w = Ran (s', None) w' ∧
    has_register_defaults s' = replicate 30 false ++ [true] ∧
    register_defaults s' = replicate 30 0 ++ [42].
Proof. eexists _, _. vm_compute. repeat split. Qed.

(** * Further properties of setup and reset *)

(** ** The option checks *)

Lemma check_options_passes s :
  data_mode s ∨ image_mode s ∨ pc_mode s →
  ∃ s1, check_options s = (s1, None).
Proof.
  unfold check_options.
  change (data_given (with_set_pc false s)) with (data_given s).
  cbn [file force_raw data_len cpu_num addr with_set_pc].
  intros [(Hd & Hf & Hr & Hn0 & Hn8)|[(Hd & Hi)|(Hd & Hf & Hr & Ha & Hn)]];
    rewrite Hd.
  - rewrite Hf, Hr. rewrite bool_decide_false by (now intros [? ?]).
    destruct (Z.eqb_spec (data_len s) 0); [contradiction|].
    destruct (Z.ltb_spec 8 (data_len s)); [lia|]. eauto.
  - assert (bool_decide (is_Some (file s)) || force_raw s = true) as ->.
    { destruct Hi as [Hi| ->]; [|apply orb_true_r].
      now rewrite bool_decide_true. }
    destruct (negb _); eauto.
  - rewrite Hf, Hr. rewrite bool_decide_false by (now intros [? ?]).
    cbn [orb]. destruct (Z.eqb_spec (addr s) 0); [contradiction|]. cbn [negb].
    destruct (Z.eqb_spec (cpu_num s) CPU_NONE); [contradiction|]. eauto.
Qed.

(** X1: the option checks are passed exactly by the three modes: data
    given with a length from 1 to 8 and neither file nor force-raw; no
    data and a file or force-raw; no data, no image, a non-zero address
    and a CPU number.  The modes exclude each other. *)
Theorem check_options_modes s :
  ((∃ s1, check_options s = (s1, None)) ↔ data_mode s ∨ image_mode s ∨ pc_mode s) ∧
  ¬ (data_mode s ∧ image_mode s) ∧ ¬ (data_mode s ∧ pc_mode s) ∧
  ¬ (image_mode s ∧ pc_mode s).
Proof.
  split; [split|].
  - intros [s1 Hc]. destruct (check_options_ok s s1 Hc)
      as [(?&?&?&?&?&_)|[(?&?&_)|(?&?&?&?&?&_)]].
    + left. repeat split; assumption.
    + right; left. split; assumption.
    + right; right. repeat split; assumption.
  - apply check_options_passes.
  - unfold data_mode, image_mode, pc_mode. repeat split.
    + intros [(Hd & _) (Hd' & _)]. congruence.
    + intros [(Hd & _) (Hd' & _)]. congruence.
    + intros [(_ & [[f Hf]|Hr]) (_ & Hf' & Hr' & _)]; congruence.
Qed.

(** ** Every way setup can end *)

(** After CPU resolution the image step always runs to its end. *)
Lemma load_image_resolved `{Host} s w :
  ∃ cs a e,
    load_image (resolve_cpu s w) w = Ran (with_addr a (resolve_cpu s w), e) (logged cs w) ∧
    (e = None ∨
     ∃ f, file s = Some f ∧ e = Some (ErrCannotLoad f) ∧ a = addr s).
Proof.
  destruct (resolve_cpu_fields s w) as [p Hp].
  destruct (file (resolve_cpu s w)) as [f|] eqn:Hf.
  - rewrite (load_image_sequencer _ f w Hf)
      by (intros h Hh; now apply (resolve_cpu_valid _ _ _ Hh)).
    destruct (spec_sequencer _ _ _ _ _) as [cs [a|e]] eqn:Hs.
    + exists cs, a, None. auto.
    + exists cs, (addr s), (Some e). split.
      * rewrite Hp. cbn. rewrite <- Hp.
        replace (with_addr (addr s) (resolve_cpu s w)) with (resolve_cpu s w);
          [done|]. rewrite Hp. now destruct s.
      * right. exists f. rewrite Hp in Hf. cbn in Hf. split; [done|]. split; [|done].
        f_equal. unfold spec_sequencer in Hs.
        destruct (first_success _ _ _ _ _) as [cs' [[?|]|]]; now inversion Hs.
  - exists [], (addr s), None. unfold load_image. rewrite Hf, logged_nil.
    split; [|now left]. do 2 f_equal. rewrite Hp. now destruct s.
Qed.

Lemma load_image_no_file `{Host} s w :
  file s = None → load_image s w = Ran (s, None) w.
Proof. intros Hf. unfold load_image. now rewrite Hf. Qed.

(** Setup, whatever the options and the machine: how it can end. *)
Lemma generic_loader_realize_cases `{Host} dev s w :
  (∃ s1 e, check_options s = (s1, Some e) ∧
           generic_loader_realize dev s w = Ran (s1, Some e) w) ∨
  (∃ s1, check_options s = (s1, None) ∧
     let w1 := registered dev w in
     let s2 := resolve_cpu s1 w1 in
     (cpu_num s ≠ CPU_NONE ∧ cpu s2 = None ∧
      generic_loader_realize dev s w
      = Ran (s2, Some (ErrCpuNonexistent (int_of_uint32 (cpu_num s)))) w1) ∨
     (∃ cs f, file s = Some f ∧
        generic_loader_realize dev s w
        = Ran (s2, Some (ErrCannotLoad f)) (logged cs w1)) ∨
     (∃ cs a, load_image s2 w1 = Ran (with_addr a s2, None) (logged cs w1) ∧
        generic_loader_realize dev s w
        = finish_realize (with_addr a s2) (logged cs w1))).
Proof.
  destruct (check_options s) as [s1 [e|]] eqn:Hc.
  { left. exists s1, e. split; [done|]. unfold generic_loader_realize. now rewrite Hc. }
  right. exists s1. split; [done|]. cbv zeta.
  rewrite (generic_loader_realize_checked dev s s1 w Hc). cbv zeta.
  destruct (check_options_fields _ _ _ Hc) as [b Hb].
  assert (Hnum : cpu_num (resolve_cpu s1 (registered dev w)) = cpu_num s).
  { destruct (resolve_cpu_fields s1 (registered dev w)) as [p ->]. now rewrite Hb. }
  rewrite Hnum.
  destruct (negb (cpu_num s =? CPU_NONE)
            && negb (bool_decide (is_Some (cpu (resolve_cpu s1 (registered dev w))))))
    eqn:Hno.
  - left. apply andb_true_iff in Hno as [Hn Hs].
    apply negb_true_iff in Hn, Hs. apply Z.eqb_neq in Hn.
    apply bool_decide_eq_false in Hs. repeat split; [done|].
    destruct (cpu _); [exfalso; apply Hs; eauto|done].
  - right.
    destruct (load_image_resolved s1 (registered dev w)) as (cs & a & e & Hl & He').
    rewrite Hl. destruct He' as [->|(f & Hf & -> & ->)].
    + right. exists cs, a. split; reflexivity.
    + left. exists cs, f. rewrite Hb in Hf. cbn in Hf. split; [done|].
      do 2 f_equal. destruct (resolve_cpu_fields s1 (registered dev w)) as [p ->].
      now destruct s1.
Qed.

Lemma check_options_live_errors s s1 e :
  check_options s = (s1, Some e) →
  e = ErrFileWithData ∨ e = ErrForceRawWithData ∨ e = ErrDataLenMissing ∨
  e = ErrDataLenTooBig ∨ e = ErrCpuNumMissing ∨ e = ErrNoArguments.
Proof.
  unfold check_options.
  change (data_given (with_set_pc false s)) with (data_given s).
  destruct (data_given s).
  - repeat match goal with
           | |- context [if ?b then _ else _] => destruct b
           end; intros [= _ <-]; auto 10.
  - repeat match goal with
           | |- context [if ?b then _ else _] => destruct b
           end; intros [= _ <-]; auto 10.
Qed.

Lemma finish_realize_error `{Host} s w s' e w' :
  finish_realize s w = Ran (s', Some e) w' →
  ∃ r, reg s = Some r ∧ e = ErrUnsupportedRegister r.
Proof.
  rewrite finish_realize_run. intros Hrun.
  assert (Hs : store_register_default (convert_data s) = (s', Some e)).
  { destruct (machine_ready w).
    - destruct (generic_loader_reset _ _); [|discriminate]. now injection Hrun.
    - now injection Hrun. }
  destruct (store_register_default_error _ _ _ Hs) as (r & Hr & -> & _). eauto.
Qed.

(** X2: the two inner guards of the image and program-counter branches
    (lines 121-125 and 134-137) can never fire: no setup, on any machine,
    reports "data can not be specified when loading an image" or "data
    can not be specified when setting a program counter".  A failed setup
    reports one of the nine other errors. *)
Theorem dead_guards_never_reported `{Host} dev s s' e w w' :
  generic_loader_realize dev s w = Ran (s', Some e) w' →
  e ≠ ErrDataWithImage ∧ e ≠ ErrDataWithPC.
Proof.
  intros Hrun.
  destruct (generic_loader_realize_cases dev s w)
    as [(s1 & e1 & Hc & Hr)|(s1 & Hc & [(_ & _ & Hr)|[(cs & f & _ & Hr)|(cs & a & _ & Hr)]])];
    rewrite Hr in Hrun.
  - injection Hrun as _ <- _.
    destruct (check_options_live_errors _ _ _ Hc) as [->|[->|[->|[->|[->| ->]]]]];
      split; discriminate.
  - injection Hrun as _ <- _. split; discriminate.
  - injection Hrun as _ <- _. split; discriminate.
  - destruct (finish_realize_error _ _ _ _ _ Hrun) as (r & _ & ->).
    split; discriminate.
Qed.

Lemma dead_guards_never_reported_witness :
  let H := demo_host false false in
  let s := configure 4096 0 0 false CPU_NONE None None false in
  let w := demo_world false false 1 false in
  generic_loader_realize 5 s w = Ran (s, Some ErrCpuNumMissing) w ∧
  ErrCpuNumMissing ≠ ErrDataWithImage ∧ ErrCpuNumMissing ≠ ErrDataWithPC.
Proof.
  intros H s w. split; [reflexivity|].
  apply (dead_guards_never_reported (H := H) 5%nat s s ErrCpuNumMissing w w).
  reflexivity.
Defined.

(** X3: on a machine that has not reached its ready milestone setup
    always runs to its end, with or without an error, and changes no
    CPU.  It writes no memory of its own either: when it made no loader
    call, memory is as it was.  (What a loader call puts into memory is
    outside the model, so nothing is said about memory after one.) *)
Theorem setup_before_ready_is_quiet `{Host} dev s w :
  machine_ready w = false →
  ∃ r w', generic_loader_realize dev s w = Ran r w' ∧
          cpus w' = cpus w ∧
          (load_log w' = load_log w → spaces w' = spaces w).
Proof.
  intros Hm.
  destruct (generic_loader_realize_cases dev s w)
    as [(s1 & e1 & Hc & Hr)|(s1 & Hc & [(_ & _ & Hr)|[(cs & f & _ & Hr)|(cs & a & _ & Hr)]])];
    rewrite Hr.
  - eauto.
  - eexists _, _. split; [reflexivity|]. split; reflexivity.
  - eexists _, _. split; [reflexivity|]. split; reflexivity.
  - rewrite finish_realize_run.
    change (machine_ready (logged cs (registered dev w))) with (machine_ready w).
    rewrite Hm. eexists _, _. split; [reflexivity|]. split; reflexivity.
Qed.

Lemma setup_before_ready_is_quiet_witness :
  let H := demo_host false false in
  let s := configure 64 42 4 false 0 None (Some "r2"%string) false in
  let w := demo_world false false 1 false in
  ∃ r w', generic_loader_realize 5 s w = Ran r w' ∧
          cpus w' = cpus w ∧
          (load_log w' = load_log w → spaces w' = spaces w).
Proof.
  intros H s w.
  apply (setup_before_ready_is_quiet (H := H) 5%nat s w). reflexivity.
Defined.

(** ** What a setup that reaches the register name has done *)

Lemma generic_loader_realize_shape `{Host} dev s s' e w w' :
  generic_loader_realize dev s w = Ran (s', e) w' →
  reaches_register e = true →
  ∃ b cs a,
    let w1 := registered dev w in
    let s2 := resolve_cpu (with_set_pc b s) w1 in
    let s3 := convert_data (with_addr a s2) in
    check_options s = (with_set_pc b s, None) ∧
    load_image s2 w1 = Ran (with_addr a s2, None) (logged cs w1) ∧
    store_register_default s3 = (s', e) ∧
    (if machine_ready w then generic_loader_reset s3 (logged cs w1) = Ran tt w'
     else w' = logged cs w1).
Proof.
  intros Hrun He.
  destruct (generic_loader_realize_cases dev s w)
    as [(s1 & e1 & Hc & Hr)|(s1 & Hc & [(_ & _ & Hr)|[(cs & f & _ & Hr)|(cs & a & Hl & Hr)]])];
    rewrite Hr in Hrun.
  - injection Hrun as _ <- _. apply check_options_error in Hc. now destruct e1.
  - now injection Hrun as _ <- _.
  - now injection Hrun as _ <- _.
  - destruct (check_options_fields _ _ _ Hc) as [b ->].
    destruct (finish_realize_result _ _ _ _ _ Hrun) as [Hs Hw].
    exists b, cs, a. cbv zeta. auto.
Qed.

Lemma store_register_default_ok s s' :
  store_register_default s = (s', None) →
  (reg s = None ∧ s' = s) ∨
  (∃ r n, reg s = Some r ∧ sscanf_r_d r = Some n ∧ 0 ≤ n < 31 ∧
          s' = with_register_default (Z.to_nat n) (data s) s).
Proof.
  unfold store_register_default. destruct (reg s) as [r|]; [|left; now inversion H].
  destruct (sscanf_r_d r) as [n|] eqn:Hn; [|discriminate].
  destruct (Z.leb_spec 0 n); destruct (Z.ltb_spec n 31); cbn [andb];
    try discriminate.
  intros [= <-]. right. exists r, n. repeat split; auto.
Qed.

Lemma data_given_false s :
  data_given s = false → data s = 0 ∧ data_len s = 0 ∧ data_be s = false.
Proof.
  unfold data_given. intros Hdg. apply orb_false_iff in Hdg as [Hdg Hbe].
  apply orb_false_iff in Hdg as [Hd0 Hn0].
  apply negb_false_iff in Hd0, Hn0. apply Z.eqb_eq in Hd0, Hn0. auto.
Qed.

Lemma cpu_to_le64_zero `{Host} : cpu_to_le64 0 = 0.
Proof. unfold cpu_to_le64. now destruct HOST_BIG_ENDIAN. Qed.

(** ** Registration and teardown *)

(** X4: a setup that succeeds has added exactly one entry for the device
    at the end of the reset registry, and [generic_loader_unrealize]
    takes it out again, touching nothing else: when the device was not
    registered before, setup followed by teardown leaves the registry as
    it was. *)
Theorem setup_then_teardown `{Host} dev s s' w w' :
  generic_loader_realize dev s w = Ran (s', None) w' →
  reset_handlers w' = reset_handlers w ++ [dev] ∧
  (dev ∉ reset_handlers w →
   ∃ w'', generic_loader_unrealize dev w' = Ran tt w'' ∧
          reset_handlers w'' = reset_handlers w ∧
          cpus w'' = cpus w' ∧ spaces w'' = spaces w' ∧ load_log w'' = load_log w').
Proof.
  intros Hrun.
  destruct (generic_loader_realize_shape _ _ _ _ _ _ Hrun eq_refl)
    as (b & cs & a & _ & _ & _ & Hw). cbv zeta in Hw.
  assert (Hh : reset_handlers w' = reset_handlers w ++ [dev]).
  { destruct (machine_ready w).
    - pose proof (generic_loader_reset_frame
        (convert_data (with_addr a (resolve_cpu (with_set_pc b s) (registered dev w))))
        (logged cs (registered dev w))) as Hfr. cbv zeta in Hfr.
      rewrite Hw in Hfr. unfold world_of in Hfr. now destruct Hfr as (-> & _).
    - now rewrite Hw. }
  split; [done|]. intros Hd. eexists. split; [reflexivity|].
  cbn. rewrite Hh. now rewrite remove_first_registered.
Qed.

Lemma setup_then_teardown_witness :
  let H := demo_host false false in
  let s := configure 64 42 4 false 0 None None false in
  let w := demo_world false false 1 false in
  let w' := registered 5 w in
  reset_handlers w' = reset_handlers w ++ [5%nat] ∧
  (5%nat ∉ reset_handlers w →
   ∃ w'', generic_loader_unrealize 5 w' = Ran tt w'' ∧
          reset_handlers w'' = reset_handlers w ∧
          cpus w'' = cpus w' ∧ spaces w'' = spaces w' ∧ load_log w'' = load_log w').
Proof.
  intros H s w w'.
  apply (setup_then_teardown (H := H) 5%nat s (with_cpu (Some 0%nat) s) w w').
  reflexivity.
Defined.

(** ** The mode a successful setup leaves *)

(** X5: a setup that succeeds leaves the device in one of two states.
    In data mode [set_pc] is clear, the length is the configured one,
    between 1 and 8, and the address is the configured one.  Otherwise
    there is no literal (length 0, value 0) and [set_pc] is set exactly
    when a CPU number was given.  So the reset callback never both resets
    a CPU and writes a literal. *)
Theorem setup_mode_invariant `{Host} dev s s' w w' :
  generic_loader_realize dev s w = Ran (s', None) w' →
  ((data_mode s ∧ set_pc s' = false ∧ data_len s' = data_len s ∧ addr s' = addr s) ∨
   (data_given s = false ∧ data_len s' = 0 ∧ data s' = 0 ∧
    set_pc s' = negb (cpu_num s =? CPU_NONE))) ∧
  ¬ (set_pc s' = true ∧ data_len s' ≠ 0).
Proof.
  intros Hrun.
  destruct (generic_loader_realize_shape _ _ _ _ _ _ Hrun eq_refl)
    as (b & cs & a & Hc & Hl & Hs & _). cbv zeta in Hl, Hs.
  destruct (store_register_default_fields _ _ _ Hs) as (Ha & Hd & Hn & _ & Hpc).
  destruct (resolve_cpu_fields (with_set_pc b s) (registered dev w)) as [p Hp].
  rewrite Hp in *. cbn in Ha, Hd, Hn, Hpc.
  assert (Hmain :
    (data_mode s ∧ set_pc s' = false ∧ data_len s' = data_len s ∧ addr s' = addr s) ∨
    (data_given s = false ∧ data_len s' = 0 ∧ data s' = 0 ∧
     set_pc s' = negb (cpu_num s =? CPU_NONE))).
  { destruct (check_options_ok _ _ Hc)
      as [(Hdg & Hf & Hr & Hn0 & Hn8 & Hb)|[(Hdg & _ & Hb)|(Hdg & _ & _ & _ & Hne & Hb)]].
    - left. apply (f_equal set_pc) in Hb. cbn in Hb.
      repeat split; try done; try congruence.
      rewrite load_image_no_file in Hl by done. injection Hl as Hl _. congruence.
    - right. apply (f_equal set_pc) in Hb. cbn in Hb.
      destruct (data_given_false _ Hdg) as (Hd0 & Hn0 & Hbe).
      repeat split; try congruence.
      rewrite Hd, Hbe, Hd0. apply cpu_to_le64_zero.
    - right. apply (f_equal set_pc) in Hb. cbn in Hb.
      destruct (data_given_false _ Hdg) as (Hd0 & Hn0 & Hbe).
      repeat split; try congruence.
      + rewrite Hd, Hbe, Hd0. apply cpu_to_le64_zero.
      + rewrite Hpc, Hb. symmetry. apply negb_true_iff. now apply Z.eqb_neq. }
  split; [exact Hmain|].
  intros [Hp1 Hn1]. destruct Hmain as [(_ & ? & _)|(_ & ? & _)]; congruence.
Qed.

Lemma setup_mode_invariant_witness :
  let H := demo_host false false in
  let s := configure 64 42 4 false 0 None None false in
  let w := demo_world false false 1 false in
  let s' := with_cpu (Some 0%nat) s in
  ((data_mode s ∧ set_pc s' = false ∧ data_len s' = data_len s ∧ addr s' = addr s) ∨
   (data_given s = false ∧ data_len s' = 0 ∧ data s' = 0 ∧
    set_pc s' = negb (cpu_num s =? CPU_NONE))) ∧
  ¬ (set_pc s' = true ∧ data_len s' ≠ 0).
Proof.
  intros H s w s'.
  apply (setup_mode_invariant (H := H) 5%nat s s' w (registered 5 w)).
  reflexivity.
Defined.

(** ** The program counter *)

(** X6: after a setup that succeeds with [set_pc] set, and with no
    register name, each run of the reset callback on a machine where the
    resolved CPU exists and has a class does exactly this: it resets that
    CPU and then sets its program counter to the device's address;
    memory and the other CPUs stay as they are.  Without a file the
    address is the configured one. *)
Theorem reset_sets_program_counter `{Host} dev s s' w w' :
  generic_loader_realize dev s w = Ran (s', None) w' →
  set_pc s' = true → reg s = None →
  (∀ i, (i < 31)%nat → has_register_defaults s !!! i = false) →
  (file s = None → addr s' = addr s) ∧
  ∃ h, cpu s' = Some h ∧
    ∀ w2 c2 k, cpus w2 !! h = Some c2 → cc c2 = Some k →
      generic_loader_reset s' w2
      = Ran tt (on_cpu h (λ c, cc_set_pc k (cpu_reset (env c)) (addr s')) w2).
Proof.
  intros Hrun Hpc Hreg Hhas.
  destruct (generic_loader_realize_ok_fields _ _ _ _ _ Hrun)
    as (s1 & Hc & Hn & _ & Hpc1 & Hcpu & Haddr).
  destruct (generic_loader_realize_ok _ _ _ _ _ Hrun)
    as (s1' & cs & a & Hc' & Hres & _ & Hs & _).
  rewrite Hc in Hc'. injection Hc' as <-. cbv zeta in Hs.
  split; [exact Haddr|].
  assert (Hmode : data_len s = 0 ∧ cpu_num s1 ≠ CPU_NONE).
  { rewrite Hpc1 in Hpc.
    destruct (check_options_ok _ _ Hc)
      as [(_&_&_&_&_& ->)|[(Hdg &_& ->)|(Hdg &_&_&_& Hne & ->)]];
      [discriminate| |].
    - cbn in Hpc. apply negb_true_iff, Z.eqb_neq in Hpc.
      split; [now destruct (data_given_false _ Hdg) as (_ & ? & _)|done].
    - split; [now destruct (data_given_false _ Hdg) as (_ & ? & _)|done]. }
  destruct Hmode as [Hlen Hnum].
  destruct Hres as [?|[h Hh]]; [contradiction|].
  exists h. split; [congruence|].
  assert (Hs' : has_register_defaults s' = has_register_defaults s).
  { destruct (check_options_fields _ _ _ Hc) as [b ->].
    destruct (resolve_cpu_fields (with_set_pc b s) (registered dev w)) as [p Hp].
    rewrite Hp in Hs. unfold store_register_default in Hs. cbn in Hs.
    rewrite Hreg in Hs. now injection Hs as <-. }
  intros w2 c2 k Hc2 Hk.
  rewrite (generic_loader_reset_valid s' w2 h c2) by congruence. cbv zeta.
  rewrite Hn, Hlen. change (0 =? 0) with true. cbv iota. f_equal.
  apply (on_cpu_ext _ _ _ _ c2); [done|].
  unfold cpu_effect. rewrite defaults_effect_none.
  - cbn [env set_env]. unfold pc_effect. now rewrite Hpc, Hk.
  - intros i Hi. rewrite Hs'. apply Hhas. apply elem_of_seq in Hi. lia.
Qed.

Lemma reset_sets_program_counter_witness :
  let H := demo_host false false in
  let s := configure 4096 0 0 false 1 None None false in
  let w := demo_world false false 2 false in
  let s' := with_cpu (Some 1%nat) (with_set_pc true s) in
  (file s = None → addr s' = addr s) ∧
  ∃ h, cpu s' = Some h ∧
    ∀ w2 c2 k, cpus w2 !! h = Some c2 → cc c2 = Some k →
      generic_loader_reset s' w2
      = Ran tt (on_cpu h (λ c, cc_set_pc k (cpu_reset (env c)) (addr s')) w2).
Proof.
  intros H s w s'.
  apply (reset_sets_program_counter (H := H) 5%nat s s' w (registered 5 w)).
  - reflexivity.
  - reflexivity.
  - reflexivity.
  - intros i Hi. now apply lookup_total_replicate_2.
Defined.

(** ** What the reset callback leaves alone *)

(** X7: a run of the reset callback, finished or stopped, changes no CPU
    but the device's own, of which it changes nothing but the
    architectural state (index, address space and class stay), and
    changes no address space but that CPU's. *)
Theorem reset_touches_one_cpu `{Host} s w :
  let w' := world_of (generic_loader_reset s w) in
  (∀ j, cpu s ≠ Some j → cpus w' !! j = cpus w !! j) ∧
  (∀ h c, cpu s = Some h → cpus w !! h = Some c →
          ∃ e, cpus w' !! h = Some (set_env e c)) ∧
  (∀ a, (∀ h c, cpu s = Some h → cpus w !! h = Some c → as_ c ≠ a) →
        spaces w' !! a = spaces w !! a).
Proof.
  cbv zeta. destruct (deref_cpu_cases (cpu s) w) as [(h & c & Hh & Hc)|Hd].
  - rewrite (generic_loader_reset_valid s w h c Hh Hc). cbv zeta.
    assert (Hcpus : ∀ o, o = on_cpu h (cpu_effect s) w ∨
                         o = data_effect s (as_ c) (on_cpu h (cpu_effect s) w) →
              (∀ j, cpu s ≠ Some j → cpus o !! j = cpus w !! j) ∧
              (∀ h0 c0, cpu s = Some h0 → cpus w !! h0 = Some c0 →
                        ∃ e, cpus o !! h0 = Some (set_env e c0))).
    { intros o Ho.
      assert (cpus o = alter (λ c, set_env (cpu_effect s c) c) h (cpus w)) as ->
        by (destruct Ho as [-> | ->]; reflexivity).
      split.
      - intros j Hj. apply list_lookup_alter_ne. congruence.
      - intros h0 c0 Hh0 Hc0. rewrite Hh in Hh0. injection Hh0 as <-.
        rewrite Hc in Hc0. injection Hc0 as <-.
        exists (cpu_effect s c). rewrite list_lookup_alter_eq, Hc. reflexivity. }
    destruct (data_len s =? 0); [|destruct (data_len s <? 8)]; unfold world_of.
    + destruct (Hcpus _ (or_introl eq_refl)) as [H1 H2]. repeat split; auto.
    + destruct (Hcpus _ (or_intror eq_refl)) as [H1 H2]. repeat split; auto.
      intros a Ha. unfold data_effect, with_spaces; cbn [spaces].
      apply lookup_insert_ne. apply (Ha h c Hh Hc).
    + destruct (Hcpus _ (or_introl eq_refl)) as [H1 H2]. repeat split; auto.
  - assert (Hsame : world_of (generic_loader_reset s w) = w)
      by (destruct (generic_loader_reset_invalid s w Hd) as [-> |[f ->]]; reflexivity).
    rewrite Hsame. repeat split; auto.
    intros h c Hh Hc. exfalso. unfold deref_cpu, bind, get in Hd.
    rewrite Hh, Hc in Hd. discriminate.
Qed.

Lemma defaults_effect_no_writer `{Host} s l c :
  (cc c = None ∨ ∃ k, cc c = Some k ∧ cc_gdb_write_register k = None) →
  defaults_effect s l c = env c.
Proof.
  intros Hno. revert c Hno. induction l as [|i l IH]; intros c Hno; [reflexivity|].
  cbn [defaults_effect].
  assert (Hstep : default_effect s i c = env c).
  { unfold default_effect. destruct (has_register_defaults s !!! i); [|reflexivity].
    destruct Hno as [-> |(k & -> & ->)]; reflexivity. }
  rewrite Hstep, set_env_same. now apply IH.
Qed.

(** X8: when the class of the device's CPU has no register-write method
    (or the CPU has no class) the register defaults are skipped without
    any error: the run is that of the program-counter step and the
    literal write alone. *)
Theorem register_defaults_need_a_writer `{Host} s w h c :
  cpu s = Some h → cpus w !! h = Some c →
  (cc c = None ∨ ∃ k, cc c = Some k ∧ cc_gdb_write_register k = None) →
  generic_loader_reset s w =
    let w1 := on_cpu h (pc_effect s) w in
    if data_len s =? 0 then Ran tt w1
    else if data_len s <? 8 then Ran tt (data_effect s (as_ c) w1)
    else Stopped AssertionFailed w1.
Proof.
  intros Hh Hc Hno. rewrite (generic_loader_reset_valid s w h c Hh Hc). cbv zeta.
  assert (Heq : on_cpu h (cpu_effect s) w = on_cpu h (pc_effect s) w).
  { apply (on_cpu_ext _ _ _ _ c); [done|]. unfold cpu_effect.
    now rewrite defaults_effect_no_writer. }
  now rewrite Heq.
Qed.

Lemma register_defaults_need_a_writer_witness :
  let H := demo_host false false in
  let k := @Build_CPUClass H (λ (e : regfile) a, {| pc := a; xregs := xregs e |}) None in
  let c := @Build_CPUState H 0 0 (Some k) {| pc := 4; xregs := replicate 31 7 |} in
  let w := with_cpus [c] (demo_world false false 1 false) in
  let s := with_register_default 2 42
             (with_cpu (Some 0%nat) (configure 64 42 4 false 0 None None false)) in
  generic_loader_reset s w = Ran tt (data_effect s 0 (on_cpu 0 (pc_effect s) w)).
Proof.
  intros H k c w s.
  apply (register_defaults_need_a_writer (H := H) s w 0%nat c).
  - reflexivity.
  - reflexivity.
  - right. exists k. split; reflexivity.
Defined.

(** ** Setup without a file *)

(** X9: without a file no image loader is ever called, whatever else is
    configured and however setup ends; in particular force-raw alone
    passes the checks as an image configuration and then loads nothing. *)
Theorem no_file_no_loader_call `{Host} dev s w :
  file s = None →
  load_log (world_of (generic_loader_realize dev s w)) = load_log w.
Proof.
  intros Hf.
  destruct (generic_loader_realize_cases dev s w)
    as [(s1 & e1 & Hc & Hr)|(s1 & Hc & [(_ & _ & Hr)|[(cs & f & Hf' & Hr)|(cs & a & Hl & Hr)]])];
    rewrite Hr; try reflexivity; [congruence|].
  destruct (check_options_fields _ _ _ Hc) as [b ->].
  destruct (resolve_cpu_fields (with_set_pc b s) (registered dev w)) as [p Hp].
  rewrite Hp in *.
  rewrite load_image_no_file in Hl by exact Hf.
  apply (f_equal (λ o, load_log (world_of o))) in Hl. cbn in Hl.
  rewrite finish_realize_run.
  change (machine_ready (logged cs (registered dev w))) with (machine_ready w).
  destruct (machine_ready w).
  - pose proof (generic_loader_reset_frame
      (convert_data (with_addr a (with_cpu p (with_set_pc b s))))
      (logged cs (registered dev w))) as (_ & Hlog & _).
    destruct (generic_loader_reset _ _); unfold world_of in *; rewrite Hlog;
      cbn; now rewrite <- Hl.
  - cbn. now rewrite <- Hl.
Qed.

Lemma no_file_no_loader_call_witness :
  let H := demo_host false false in
  let s := configure 64 0 0 false 0 None None true in
  let w := demo_world false false 1 true in
  load_log (world_of (generic_loader_realize 5 s w)) = load_log w.
Proof.
  intros H s w. apply (no_file_no_loader_call (H := H) 5%nat s w). reflexivity.
Defined.

(** ** The properties setup keeps *)

Lemma store_register_default_props s s' e :
  store_register_default s = (s', e) →
  file s' = file s ∧ reg s' = reg s ∧ cpu_num s' = cpu_num s ∧
  data_be s' = data_be s ∧ force_raw s' = force_raw s ∧ attrs s' = attrs s.
Proof.
  unfold store_register_default.
  destruct (reg s) as [r|] eqn:Hr; [|intros [= <- _]; auto 10].
  destruct (sscanf_r_d r) as [n|]; [destruct (_ && _)|]; intros [= <- _];
    cbn; auto 10.
Qed.

(** Under force-raw the image step leaves the address alone. *)
Lemma load_image_force_raw `{Host} s w a e w' :
  force_raw s = true → load_image s w = Ran (with_addr a s, e) w' → a = addr s.
Proof.
  intros Hr. unfold load_image. destruct (file s) as [f|].
  - rewrite Hr. cbn [negb].
    destruct (match cpu s with
              | Some _ => hc <- deref_cpu (cpu s); ret (Some (as_ hc.2))
              | None => ret None
              end w) as [sp w1|fl w1] eqn:Hsp.
    + erewrite bind_run by exact Hsp.
      unfold bind, ret, get, call_raw, modify. cbn.
      destruct (_ <? 0); intros Heq; injection Heq as Heq _;
        apply (f_equal addr) in Heq; cbn in Heq; congruence.
    + erewrite bind_stop by exact Hsp. discriminate.
  - unfold ret. intros Heq. injection Heq as Heq _.
    apply (f_equal addr) in Heq. cbn in Heq. congruence.
Qed.

(** X10: however setup ends, the properties it was given stay as they
    were, except for two: the data, which may have been converted, and
    the address, which only a structured loader can change: without a
    file, or under force-raw, the address stays too. *)
Theorem setup_keeps_properties `{Host} dev s s' e w w' :
  generic_loader_realize dev s w = Ran (s', e) w' →
  file s' = file s ∧ reg s' = reg s ∧ cpu_num s' = cpu_num s ∧
  data_len s' = data_len s ∧ data_be s' = data_be s ∧
  force_raw s' = force_raw s ∧ attrs s' = attrs s ∧
  (data s' = data s ∨
   data s' = if data_be s then cpu_to_be64 (data s) else cpu_to_le64 (data s)) ∧
  (file s = None ∨ force_raw s = true → addr s' = addr s).
Proof.
  intros Hrun.
  destruct (generic_loader_realize_cases dev s w)
    as [(s1 & e1 & Hc & Hr)|(s1 & Hc & Hrest)].
  { rewrite Hr in Hrun. injection Hrun as <- _ _.
    destruct (check_options_fields _ _ _ Hc) as [b ->]. cbn. repeat split; auto. }
  destruct (check_options_fields _ _ _ Hc) as [b ->]. cbv zeta in Hrest.
  destruct (resolve_cpu_fields (with_set_pc b s) (registered dev w)) as [p Hp].
  rewrite Hp in Hrest.
  destruct Hrest as [(_ & _ & Hr)|[(cs & f & _ & Hr)|(cs & a & Hl & Hr)]];
    rewrite Hr in Hrun.
  - injection Hrun as <- _ _. cbn. repeat split; auto.
  - injection Hrun as <- _ _. cbn. repeat split; auto.
  - destruct (finish_realize_result _ _ _ _ _ Hrun) as [Hs _].
    destruct (store_register_default_props _ _ _ Hs) as (?&?&?&?&?&?).
    destruct (store_register_default_fields _ _ _ Hs) as (Ha & Hd & Hn & _ & _).
    cbn in *. repeat split; auto.
    intros [Hf|Hraw]; rewrite Ha.
    + rewrite load_image_no_file in Hl by exact Hf.
      injection Hl as Hl _. congruence.
    + apply (load_image_force_raw (with_cpu p (with_set_pc b s)) _ _ _ _ Hraw) in Hl.
      now rewrite Hl.
Qed.

Lemma setup_keeps_properties_witness :
  let H := demo_host false false in
  let s := configure 64 42 4 true 0 None (Some "r2"%string) false in
  let w := demo_world false false 1 false in
  let s3 := convert_data (with_cpu (Some 0%nat) s) in
  let s' := with_register_default 2 (data s3) s3 in
  file s' = file s ∧ reg s' = reg s ∧ cpu_num s' = cpu_num s ∧
  data_len s' = data_len s ∧ data_be s' = data_be s ∧
  force_raw s' = force_raw s ∧ attrs s' = attrs s ∧
  (data s' = data s ∨
   data s' = if data_be s then cpu_to_be64 (data s) else cpu_to_le64 (data s)) ∧
  (file s = None ∨ force_raw s = true → addr s' = addr s).
Proof.
  intros H s w s3 s'.
  apply (setup_keeps_properties (H := H) 5%nat s s' None w (registered 5 w)).
  reflexivity.
Defined.

(** ** Register defaults *)

(** X11: a register name given without data (with an image, or with an
    address and a CPU number) is still parsed and stored.  For a name
    whose number fits the C [int] the scanner stores into: when setup
    succeeds the name stands for a slot from 0 to 30 and that slot's
    default is 0, so every reset writes zero to that register. *)
Theorem register_without_data_defaults_to_zero `{Host} dev s r s' w w' :
  generic_loader_realize dev s w = Ran (s', None) w' →
  data_given s = false → reg s = Some r →
  (∀ n, names_register r n → INT_MIN ≤ n ≤ INT_MAX) →
  ∃ n, names_register r n ∧ 0 ≤ n < 31 ∧
       register_defaults s' = <[Z.to_nat n := 0]> (register_defaults s) ∧
       has_register_defaults s' = <[Z.to_nat n := true]> (has_register_defaults s).
Proof.
  intros Hrun Hdg Hreg _.
  destruct (generic_loader_realize_register _ _ _ _ _ _ Hrun eq_refl)
    as (s3 & Hs & Hr3 & Hd3 & Hrd & Hhd).
  destruct (data_given_false _ Hdg) as (Hd0 & _ & Hbe).
  rewrite Hbe, Hd0, cpu_to_le64_zero in Hd3.
  destruct (store_register_default_ok _ _ Hs) as [[Hnone _]|(r' & n & Hr' & Hn & Hrange & ->)];
    [congruence|].
  assert (r' = r) as -> by congruence.
  exists n. split; [now apply sscanf_r_d_names|]. split; [done|].
  cbn. now rewrite Hd3, Hrd, Hhd.
Qed.

Lemma register_without_data_defaults_to_zero_witness :
  let H := demo_host false false in
  let s := configure 0 0 0 false CPU_NONE (Some "blob.bin"%string) (Some "r3"%string) false in
  let w := demo_world false false 1 false in
  let s' := with_register_default 3 0 (with_cpu (Some 0%nat) s) in
  ∃ n, names_register "r3" n ∧ 0 ≤ n < 31 ∧
       register_defaults s' = <[Z.to_nat n := 0]> (register_defaults s) ∧
       has_register_defaults s' = <[Z.to_nat n := true]> (has_register_defaults s).
Proof.
  intros H s w s'.
  apply (register_without_data_defaults_to_zero (H := H) 5%nat s "r3"%string s' w
           (logged [CallElf "blob.bin" false (Some 0%nat) (-1);
                    CallUimage "blob.bin" (Some 0%nat) (-1);
                    CallHex "blob.bin" (Some 0%nat) (-1);
                    CallRaw "blob.bin" 0 134217728 (Some 0%nat) 16]
              (registered 5 w)));
    try reflexivity.
  intros n Hn. apply sscanf_r_d_names in Hn. vm_compute in Hn.
  injection Hn as <-. vm_compute. split; discriminate.
Defined.

Lemma populated_single n :
  (n < 31)%nat →
  length (filter (λ b, b = true) (<[n := true]> (replicate 31 false))) = 1%nat.
Proof.
  intros Hn. do 31 (destruct n as [|n]; [reflexivity|]). lia.
Qed.

(** X12: a device starts with no register default, and setup populates
    at most one slot: exactly one when it succeeds with a register name,
    none in every other case. *)
Theorem setup_populates_at_most_one_slot `{Host} dev s s' e w w' :
  generic_loader_realize dev s w = Ran (s', e) w' →
  has_register_defaults s = replicate 31 false →
  populated s' = (if bool_decide (e = None ∧ is_Some (reg s)) then 1 else 0)%nat.
Proof.
  intros Hrun Hfresh.
  assert (Hzero : ∀ s0, has_register_defaults s0 = has_register_defaults s →
                        populated s0 = 0%nat).
  { intros s0 Hs0. unfold populated. rewrite Hs0, Hfresh. reflexivity. }
  destruct (reaches_register e) eqn:Hreach.
  - destruct (generic_loader_realize_register _ _ _ _ _ _ Hrun Hreach)
      as (s3 & Hs & Hr3 & _ & _ & Hhd).
    destruct e as [e|].
    + rewrite bool_decide_false by (now intros [? _]).
      destruct (store_register_default_error _ _ _ Hs) as (_ & _ & _ & ->).
      now apply Hzero.
    + destruct (store_register_default_ok _ _ Hs)
        as [[Hnone ->]|(r & n & Hr & _ & Hrange & ->)].
      * rewrite bool_decide_false by (intros [_ [? ?]]; congruence).
        now apply Hzero.
      * rewrite bool_decide_true by (split; [done|]; rewrite <- Hr3; eauto).
        unfold populated. cbn. rewrite Hhd, Hfresh.
        apply populated_single. lia.
  - rewrite bool_decide_false by (intros [-> _]; discriminate).
    apply Hzero.
    destruct (generic_loader_realize_cases dev s w)
      as [(s1 & e1 & Hc & Hr)|(s1 & Hc & Hrest)].
    { rewrite Hr in Hrun. injection Hrun as <- _ _.
      now destruct (check_options_fields _ _ _ Hc) as [b ->]. }
    destruct (check_options_fields _ _ _ Hc) as [b ->]. cbv zeta in Hrest.
    destruct (resolve_cpu_fields (with_set_pc b s) (registered dev w)) as [p Hp].
    rewrite Hp in Hrest.
    destruct Hrest as [(_ & _ & Hr)|[(cs & f & _ & Hr)|(cs & a & Hl & Hr)]];
      rewrite Hr in Hrun.
    + now injection Hrun as <- _ _.
    + now injection Hrun as <- _ _.
    + destruct (finish_realize_result _ _ _ _ _ Hrun) as [Hs _].
      destruct e as [e|]; [|discriminate].
      now destruct (store_register_default_error _ _ _ Hs) as (_ & _ & _ & ->).
Qed.

Lemma setup_populates_at_most_one_slot_witness :
  let H := demo_host false false in
  let s := configure 64 42 4 false 0 None (Some "r2"%string) false in
  let w := demo_world false false 1 false in
  populated (with_register_default 2 42 (with_cpu (Some 0%nat) s)) = 1%nat.
Proof.
  intros H s w.
  apply (setup_populates_at_most_one_slot (H := H) 5%nat s
           (with_register_default 2 42 (with_cpu (Some 0%nat) s)) None w
           (registered 5 w)); reflexivity.
Defined.

(** The populated slot gets the literal in the byte order asked for. *)
Lemma host_image64_converted `{Host} (be : bool) x :
  host_image64 (if be then cpu_to_be64 x else cpu_to_le64 x)
  = if be then be_bytes 8 x else le_bytes 8 x.
Proof. destruct be; [apply host_image64_be|apply host_image64_le]. Qed.

(** X13: after a setup that succeeds with a register name standing for
    slot [n], on a device that started without defaults, every run of the
    reset callback (also one that stops at the assertion) has handed the
    register write of the resolved CPU the eight bytes of the configured
    data, most significant first under [data_be] and least significant
    first otherwise, whatever the host's byte order, for register [n],
    and it has done so after the CPU reset and program-counter step. *)
Theorem register_default_bytes `{Host} dev s r n s' w w' :
  generic_loader_realize dev s w = Ran (s', None) w' →
  reg s = Some r → names_register r n → 0 ≤ n < 31 →
  has_register_defaults s = replicate 31 false →
  length (register_defaults s) = 31%nat →
  ∀ w2 h c2 k write,
    cpu s' = Some h → cpus w2 !! h = Some c2 →
    cc c2 = Some k → cc_gdb_write_register k = Some write →
    cpus (world_of (generic_loader_reset s' w2))
    = cpus (on_cpu h (λ c, write (pc_effect s' c)
                             (if data_be s then be_bytes 8 (data s)
                              else le_bytes 8 (data s)) n) w2).
Proof.
  intros Hrun Hreg Hname Hrange Hfresh Hlen w2 h c2 k write Hh Hc2 Hk Hwr.
  destruct (generic_loader_realize_register _ _ _ _ _ _ Hrun eq_refl)
    as (s3 & Hs & Hr3 & Hd3 & Hrd & Hhd).
  apply sscanf_r_d_names in Hname.
  destruct (store_register_default_ok _ _ Hs)
    as [[Hnone _]|(r' & n' & Hr' & Hn' & _ & Hs')]; [congruence|].
  assert (r' = r) as -> by congruence.
  assert (n' = n) as -> by congruence.
  assert (Hcpus : cpus (world_of (generic_loader_reset s' w2))
                  = cpus (on_cpu h (cpu_effect s') w2)).
  { rewrite (generic_loader_reset_valid s' w2 h c2 Hh Hc2). cbv zeta.
    destruct (data_len s' =? 0); [|destruct (data_len s' <? 8)]; reflexivity. }
  rewrite Hcpus. f_equal. apply (on_cpu_ext _ _ _ _ c2); [done|].
  assert (Hhas' : has_register_defaults s' = <[Z.to_nat n := true]> (replicate 31 false))
    by (rewrite Hs'; cbn; now rewrite Hhd, Hfresh).
  unfold cpu_effect.
  rewrite (defaults_effect_only s' (seq 0 31) (Z.to_nat n)).
  - unfold default_effect. cbn [cc env set_env].
    rewrite Hhas', list_lookup_total_insert_eq by (rewrite length_replicate; lia).
    rewrite Hk, Hwr.
    assert (register_defaults s' !!! Z.to_nat n
            = (if data_be s then cpu_to_be64 (data s) else cpu_to_le64 (data s))) as ->.
    { rewrite Hs'. cbn [register_defaults with_register_default].
      rewrite list_lookup_total_insert_eq by (rewrite Hrd, Hlen; lia).
      exact Hd3. }
    rewrite host_image64_converted. now rewrite Z2Nat.id by lia.
  - apply NoDup_seq.
  - apply elem_of_seq. lia.
  - intros i Hi Hne. apply elem_of_seq in Hi. rewrite Hhas'.
    rewrite list_lookup_total_insert_ne by done.
    apply lookup_total_replicate_2. lia.
Qed.

Lemma register_default_bytes_witness :
  let H := demo_host true false in
  let s := configure 64 42 4 true 0 None (Some "r2"%string) false in
  let w := demo_world true false 1 false in
  let s3 := convert_data (with_cpu (Some 0%nat) s) in
  let s' := with_register_default 2 (data s3) s3 in
  let write := λ (e : regfile) (buf : list Z) (i : Z),
    {| pc := pc e; xregs := <[Z.to_nat i := ldq_p false buf]> (xregs e) |} in
  cpus (world_of (generic_loader_reset s' (registered 5 w)))
  = cpus (on_cpu 0 (λ c, write (pc_effect s' c) (be_bytes 8 42) 2) (registered 5 w)).
Proof.
  intros H s w s3 s' write.
  apply (register_default_bytes (H := H) 5%nat s "r2"%string 2 s' w (registered 5 w))
    with (c2 := demo_cpu true false 0 0) (k := regfile_class true false).
  - reflexivity.
  - reflexivity.
  - now apply sscanf_r_d_names.
  - lia.
  - reflexivity.
  - reflexivity.
  - reflexivity.
  - reflexivity.
  - reflexivity.
  - reflexivity.
Defined.

(** ** Late attachment as setup followed by reset *)

Lemma load_image_ready `{Host} s w b :
  (∀ h, cpu s = Some h → is_Some (cpus w !! h)) →
  load_image s (with_machine_ready b w) =
    match load_image s w with
    | Ran r w' => Ran r (with_machine_ready b w')
    | Stopped f w' => Stopped f (with_machine_ready b w')
    end.
Proof.
  intros Hv. destruct (file s) as [f|] eqn:Hf.
  - rewrite (load_image_sequencer s f _ Hf) by exact Hv.
    rewrite (load_image_sequencer s f w Hf) by exact Hv.
    change (ram_size (with_machine_ready b w)) with (ram_size w).
    change (loader_space s (with_machine_ready b w)) with (loader_space s w).
    destruct (spec_sequencer _ _ _ _ _) as [cs [a|e]]; reflexivity.
  - now rewrite !load_image_no_file.
Qed.

(** X14: with no register name, setup on a machine past its ready
    milestone is setup on the same machine before the milestone followed
    by one run of the reset callback: the device state is the same, and
    the machine is the one the reset callback leaves (or stops in). *)
Theorem late_attach_is_setup_then_reset `{Host} dev s s' w w1 :
  reg s = None →
  generic_loader_realize dev s (with_machine_ready false w) = Ran (s', None) w1 →
  generic_loader_realize dev s (with_machine_ready true w)
  = (generic_loader_reset s' ;; ret (s', None)) (with_machine_ready true w1).
Proof.
  intros Hreg Hrun.
  destruct (check_options s) as [s1 [e1|]] eqn:Hc.
  { unfold generic_loader_realize in Hrun. rewrite Hc in Hrun. discriminate. }
  rewrite (generic_loader_realize_checked dev s s1 _ Hc) in Hrun.
  rewrite (generic_loader_realize_checked dev s s1 _ Hc). cbv zeta in *.
  change (registered dev (with_machine_ready true w))
    with (with_machine_ready true (registered dev w)).
  change (registered dev (with_machine_ready false w))
    with (with_machine_ready false (registered dev w)) in Hrun.
  change (resolve_cpu s1 (with_machine_ready true (registered dev w)))
    with (resolve_cpu s1 (registered dev w)).
  change (resolve_cpu s1 (with_machine_ready false (registered dev w)))
    with (resolve_cpu s1 (registered dev w)) in Hrun.
  set (s2 := resolve_cpu s1 (registered dev w)) in *.
  destruct (negb _ && negb _); [discriminate|].
  assert (Hv : ∀ h, cpu s2 = Some h → is_Some (cpus (registered dev w) !! h))
    by (intros h Hh; now apply (resolve_cpu_valid _ _ _ Hh)).
  rewrite (load_image_ready s2 _ false Hv) in Hrun.
  rewrite (load_image_ready s2 _ true Hv).
  destruct (load_image_resolved s1 (registered dev w)) as (cs & a & e & Hl & _).
  fold s2 in Hl. rewrite Hl in *. destruct e as [e|]; [discriminate|].
  rewrite finish_realize_run in Hrun. rewrite finish_realize_run.
  cbn [machine_ready with_machine_ready] in *.
  assert (Hst : store_register_default (convert_data (with_addr a s2))
                = (convert_data (with_addr a s2), None)).
  { unfold store_register_default.
    assert (reg (convert_data (with_addr a s2)) = reg s) as ->; [|now rewrite Hreg].
    destruct (check_options_fields _ _ _ Hc) as [b Hb].
    destruct (resolve_cpu_fields s1 (registered dev w)) as [p Hp].
    unfold s2. rewrite Hp, Hb. reflexivity. }
  rewrite Hst in *. injection Hrun as <- <-.
  unfold bind, ret. reflexivity.
Qed.

Lemma late_attach_is_setup_then_reset_witness :
  let H := demo_host false false in
  let s := configure 64 42 4 false 0 None None false in
  let w := demo_world false false 1 false in
  let s' := with_cpu (Some 0%nat) s in
  generic_loader_realize 5 s (with_machine_ready true w)
  = (generic_loader_reset s' ;; ret (s', None))
      (with_machine_ready true (registered 5 w)).
Proof.
  intros H s w s'.
  apply (late_attach_is_setup_then_reset (H := H) 5%nat s s' w (registered 5 w));
    reflexivity.
Defined.

(** ** A literal write on a machine without CPUs *)

(** X15: on a machine without CPUs a data configuration with no CPU
    number passes setup with a NULL CPU handle, and the reset callback
    then reaches [s->cpu->as] (or [CPU_GET_CLASS(s->cpu)]) with that NULL
    handle: for a length below 8 every run stops at the NULL pointer. *)
Theorem literal_write_without_cpu `{Host} dev s s' w w' :
  generic_loader_realize dev s w = Ran (s', None) w' →
  data_given s = true → cpu_num s = CPU_NONE → cpus w = [] →
  data_len s < 8 →
  cpu s' = None ∧ ∀ w2, generic_loader_reset s' w2 = Stopped NullDereference w2.
Proof.
  intros Hrun Hdg Hnum Hcpus Hlen.
  destruct (generic_loader_realize_ok_fields _ _ _ _ _ Hrun)
    as (s1 & Hc & Hn & _ & Hpc & Hcpu & _).
  destruct (check_options_ok _ _ Hc)
    as [(_&_&_& Hn0 &_& ->)|[(Hdg' & _)|(Hdg' & _)]]; try congruence.
  assert (Hnull : cpu s' = None).
  { rewrite Hcpu. unfold resolve_cpu. cbn [cpu_num with_set_pc]. rewrite Hnum.
    change (CPU_NONE =? CPU_NONE) with true. cbn [negb cpu with_cpu].
    unfold first_cpu. change (cpus (registered dev w)) with (cpus w).
    now rewrite Hcpus. }
  split; [exact Hnull|]. intros w2.
  rewrite generic_loader_reset_invalid_eq
    by (rewrite Hnull; reflexivity).
  rewrite Hpc. cbn [set_pc with_set_pc].
  destruct (existsb _ _); [reflexivity|].
  rewrite Hn. destruct (Z.eqb_spec (data_len s) 0); [contradiction|].
  destruct (Z.ltb_spec (data_len s) 8); [reflexivity|lia].
Qed.

Lemma literal_write_without_cpu_witness :
  let H := demo_host false false in
  let s := configure 64 42 4 false CPU_NONE None None false in
  let w := demo_world false false 0 false in
  cpu s = None ∧ ∀ w2, generic_loader_reset s w2 = Stopped NullDereference w2.
Proof.
  intros H s w.
  apply (literal_write_without_cpu (H := H) 5%nat s s w (registered 5 w));
    reflexivity.
Defined.


(** ** A literal write leaves the CPUs alone *)

(** X16: after a setup that accepted a data configuration without a
    register name, on a device that started without defaults, no run of
    the reset callback changes any CPU: there is no CPU reset, no
    program-counter change and no register write, only the literal
    write. *)
Theorem literal_write_leaves_cpus `{Host} dev s s' w w' :
  generic_loader_realize dev s w = Ran (s', None) w' →
  data_given s = true → reg s = None →
  (∀ i, (i < 31)%nat → has_register_defaults s !!! i = false) →
  ∀ w2, cpus (world_of (generic_loader_reset s' w2)) = cpus w2.
Proof.
  intros Hrun Hdg Hreg Hhas w2.
  destruct (generic_loader_realize_ok_fields _ _ _ _ _ Hrun)
    as (s1 & Hc & _ & _ & Hpc & _ & _).
  destruct (check_options_ok _ _ Hc)
    as [(_&_&_&_&_& ->)|[(Hdg' & _)|(Hdg' & _)]]; try congruence.
  cbn in Hpc.
  destruct (generic_loader_realize_register _ _ _ _ _ _ Hrun eq_refl)
    as (s3 & Hs & Hr3 & _ & _ & Hhd).
  assert (Hhas' : has_register_defaults s' = has_register_defaults s).
  { unfold store_register_default in Hs. rewrite Hr3, Hreg in Hs.
    now injection Hs as <-. }
  destruct (deref_cpu_cases (cpu s') w2) as [(h & c & Hh & Hcw)|Hd].
  - assert (Hsame : on_cpu h (cpu_effect s') w2 = w2).
    { rewrite <- (on_cpu_env h w2) at 2. apply (on_cpu_ext _ _ _ _ c); [done|].
      unfold cpu_effect. rewrite defaults_effect_none.
      - cbn [env set_env]. unfold pc_effect. now rewrite Hpc.
      - intros i Hi. rewrite Hhas'. apply Hhas. apply elem_of_seq in Hi. lia. }
    rewrite (generic_loader_reset_valid s' w2 h c Hh Hcw). cbv zeta.
    rewrite Hsame.
    destruct (data_len s' =? 0); [|destruct (data_len s' <? 8)]; reflexivity.
  - now destruct (generic_loader_reset_invalid s' w2 Hd) as [-> |[f ->]].
Qed.

Lemma literal_write_leaves_cpus_witness :
  let H := demo_host false false in
  let s := configure 64 42 4 false 0 None None false in
  let w := demo_world false false 1 false in
  let s' := with_cpu (Some 0%nat) s in
  cpus (world_of (generic_loader_reset s' (registered 5 w))) = cpus (registered 5 w).
Proof.
  intros H s w s'.
  apply (literal_write_leaves_cpus (H := H) 5%nat s s' w (registered 5 w));
    try reflexivity.
  intros i Hi. now apply lookup_total_replicate_2.
Defined.
